(** * MarkVault server: the token lifecycle and the bookmark routes

    A shallow embedding of [index.js]: the two Mongoose collections, the
    token helpers, the [authenticateUser] middleware and the eight route
    handlers, followed by the properties of the session model.

    What the file takes from outside is kept abstract or is an input:
    - [jsonwebtoken] and [bcryptjs] are interfaces ([Jwt], [Bcrypt]); what
      the proofs need of the first is stated as laws ([JwtLaws]), and
      nothing is assumed of the second;
    - the clock, the id the driver gives a new document and the salt bcrypt
      draws are inputs of a request ([Runtime]);
    - the store answers every call: a lost connection ends in the
      handler's [catch] (status 500) and is outside the model. An id the
      server generated, stored or signed is a well-formed ObjectId, kept
      in its lower-case hex string form; the id a client names in the
      path of a delete request is any string, and is cast as Mongoose
      casts it ([ObjectId_of_hex]). *)

From Stdlib Require Import Ascii String.
From stdpp Require Import base option gmap strings countable list.

Open Scope string_scope.
Open Scope list_scope.
Open Scope nat_scope.

(** ** Documents *)

(** An ObjectId in its hex string form. *)
Abbreviation ObjectId := string (only parsing).

(** [UserSchema], with the [_id] Mongoose adds. *)
Record User := mkUser {
  user_id : ObjectId;
  username : string;
  email : string;
  password : string;
  refreshTokens : list string;
}.

(** [BookmarkSchema], with the [_id] Mongoose adds. The schema has no
    [createdAt] path and sets no [timestamps] option. *)
Record Bookmark := mkBookmark {
  bookmark_id : ObjectId;
  title : option string;
  url : option string;
  category : option string;
  tags : list string;
  notes : option string;
  userId : ObjectId;
}.

(** The database: the [User] and [Bookmark] collections in natural
    (insertion) order. *)
Record Db := mkDb {
  users : list User;
  bookmarks : list Bookmark;
}.

Definition emptyDb : Db := mkDb [] [].

#[global] Instance User_eq_dec : EqDecision User.
Proof. solve_decision. Defined.
#[global] Instance Bookmark_eq_dec : EqDecision Bookmark.
Proof. solve_decision. Defined.
#[global] Instance Db_eq_dec : EqDecision Db.
Proof. solve_decision. Defined.

(** ** The process environment and the inputs of a request *)

(** [process.env]: either secret may be unset. *)
Record ProcessEnv := mkEnv {
  JWT_SECRET : option string;
  REFRESH_SECRET : option string;
}.

(** What a request reads from the outside world: [Date.now()] in seconds
    (the unit of a token's [iat] and [exp]), the ObjectId generated for a
    document built with [new], the salt [bcrypt.hash] draws. *)
Record Runtime := mkRuntime {
  now : N;
  newObjectId : ObjectId;
  genSalt : string;
}.

(** JavaScript truthiness of a value that is a string or [undefined]:
    [!x] holds for [undefined] and for the empty string. *)
Definition truthy (x : option string) : bool :=
  match x with
  | Some s => negb (String.eqb s "")
  | None => false
  end.

(** ** jsonwebtoken and bcryptjs *)

(** The payload [jwt.verify] hands back: what was signed, with the [iat]
    and [exp] that [jwt.sign] added. A refresh token carries no email. *)
Record Claims := mkClaims {
  tok_userId : ObjectId;
  tok_email : option string;
  iat : N;
  exp : N;
}.

#[global] Instance Claims_eq_dec : EqDecision Claims.
Proof. solve_decision. Defined.

(** [jwt_sign uid em secret t ttl] is [jwt.sign({userId, email?}, secret,
    {expiresIn: ttl})] called at time [t]; [jwt_verify tok secret t] is
    [jwt.verify(tok, secret)] called at time [t], [None] when it throws
    (or passes an error to its callback). *)
Class Jwt := {
  jwt_sign : ObjectId → option string → string → N → N → string;
  jwt_verify : string → option string → N → option Claims;
}.

(** [bcrypt_hash pw rounds salt] is [bcrypt.hash(pw, rounds)] when the salt
    drawn is [salt]; [bcrypt_compare pw h] is [bcrypt.compare(pw, h)]. *)
Class Bcrypt := {
  bcrypt_hash : string → nat → string → string;
  bcrypt_compare : string → string → bool;
}.

(** Whether a character occurs in a string. *)
Fixpoint has_char (c : ascii) (s : string) : bool :=
  match s with
  | EmptyString => false
  | String a s' => if Ascii.eqb a c then true else has_char c s'
  end.

(** What the proofs assume of jsonwebtoken, for tokens signed with a
    non-empty secret ([jwt.sign] throws on an empty one): a token verifies
    under the secret that signed it until it expires and under no secret
    afterwards, it determines its payload and timestamps, and it is a
    non-empty string without a space. *)
Class JwtLaws `{Jwt} : Prop := {
  jwt_verify_sign (uid : ObjectId) (em : option string) (k : string)
      (t ttl t' : N) :
    k ≠ "" → (t' < t + ttl)%N →
    jwt_verify (jwt_sign uid em k t ttl) (Some k) t'
    = Some (mkClaims uid em t (t + ttl)%N);
  jwt_verify_expired (uid : ObjectId) (em : option string) (k : string)
      (t ttl : N) (sk : option string) (t' : N) :
    k ≠ "" → (t + ttl ≤ t')%N →
    jwt_verify (jwt_sign uid em k t ttl) sk t' = None;
  jwt_sign_inj (uid : ObjectId) (em : option string) (k : string)
      (t ttl : N) (uid' : ObjectId) (em' : option string) (k' : string)
      (t' ttl' : N) :
    k ≠ "" → k' ≠ "" →
    jwt_sign uid em k t ttl = jwt_sign uid' em' k' t' ttl' →
    uid = uid' ∧ em = em' ∧ t = t' ∧ ttl = ttl';
  jwt_sign_nonempty (uid : ObjectId) (em : option string) (k : string)
      (t ttl : N) :
    k ≠ "" → jwt_sign uid em k t ttl ≠ "";
  jwt_sign_no_space (uid : ObjectId) (em : option string) (k : string)
      (t ttl : N) :
    k ≠ "" → has_char " "%char (jwt_sign uid em k t ttl) = false;
}.

(** ** Responses *)

(** An exception that reaches a handler's [catch]: one this file throws,
    with its message, or one raised by Mongoose. *)
Inductive Exn :=
  | JsError (message : string)
  | DuplicateKey
  | ValidationError
  | CastError.

(** The JSON bodies the handlers send. [Failure e] is
    [{ message: error.message }]. *)
Inductive Body :=
  | Message (message : string)
  | Session (message accessToken refreshToken : string)
  | AccessToken (accessToken : string)
  | BookmarkDoc (b : Bookmark)
  | BookmarkDocs (bs : list Bookmark)
  | Failure (e : Exn).

(** What the client gets: [res.status(s).json(b)], or nothing at all (an
    exception outside every [try]). *)
Inductive Reply :=
  | Json (status : nat) (body : Body)
  | NoReply.

#[global] Instance Exn_eq_dec : EqDecision Exn.
Proof. solve_decision. Defined.
#[global] Instance Body_eq_dec : EqDecision Body.
Proof. solve_decision. Defined.
#[global] Instance Reply_eq_dec : EqDecision Reply.
Proof. solve_decision. Defined.

(** ** The monad of a handler body

    A computation reads and writes the database and ends in a value, in a
    response already sent ([return res.status(..).json(..)]) or in an
    exception. *)

Inductive Outcome (A : Type) :=
  | Value (a : A)
  | Sent (r : Reply)
  | Thrown (e : Exn).
Arguments Value {A} a.
Arguments Sent {A} r.
Arguments Thrown {A} e.

Definition Route (A : Type) : Type := Db → Db * Outcome A.

#[global] Instance Route_ret : MRet Route := λ A a db, (db, Value a).

#[global] Instance Route_bind : MBind Route := λ A B f m db,
  match m db with
  | (db', Value a) => f a db'
  | (db', Sent r) => (db', Sent r)
  | (db', Thrown e) => (db', Thrown e)
  end.

Definition send {A} (status : nat) (body : Body) : Route A :=
  λ db, (db, Sent (Json status body)).

Definition throw {A} (e : Exn) : Route A :=
  λ db, (db, Thrown e).

Definition getDb : Route Db := λ db, (db, Value db).

Definition putDb (db' : Db) : Route () := λ _, (db', Value ()).

(** [try { body } catch (error) { res.status(500).json({ message:
    error.message }) }], the shape of every route handler. A body that
    ends without sending leaves the request unanswered. *)
Definition try_catch (body : Route ()) (db : Db) : Db * Reply :=
  match body db with
  | (db', Value _) => (db', NoReply)
  | (db', Sent r) => (db', r)
  | (db', Thrown e) => (db', Json 500 (Failure e))
  end.

(** A body run where no [try] is on the stack (the callback of
    [jwt.verify] in the refresh route): an exception there is never
    answered. *)
Definition uncaught {A} (body : Route A) : Route A := λ db,
  match body db with
  | (db', Thrown _) => (db', Sent NoReply)
  | r => r
  end.

(** [for (let x of xs) { body }] where the body may return from the
    handler. *)
Fixpoint for_of {A} (xs : list A) (body : A → Route ()) : Route () :=
  match xs with
  | [] => mret ()
  | x :: xs' => body x ;; for_of xs' body
  end.

(** ** Mongoose: queries and writes *)

(** [User.findOne(filter)]: the first document, in natural order, that
    matches. *)
Definition User_findOne (filter : User → bool) : Route (option User) :=
  db ← getDb; mret (List.find filter (users db)).

(** [User.find({})]. *)
Definition User_find : Route (list User) :=
  db ← getDb; mret (users db).

(** [User.findById(id)]. *)
Definition User_findById (id : ObjectId) : Route (option User) :=
  User_findOne (λ u, bool_decide (user_id u = id)).

(** The unique indexes of the [User] collection: [_id], [username] and
    [email]. *)
Definition User_conflict (u v : User) : bool :=
  bool_decide (user_id v = user_id u)
  || bool_decide (username v = username u)
  || bool_decide (email v = email u).

(** [user.save()] on a document built with [new User(..)]: an insert,
    refused when a unique index already holds one of its keys. *)
Definition User_save_new (u : User) : Route () :=
  db ← getDb;
  if existsb (User_conflict u) (users db) then throw DuplicateKey
  else putDb (mkDb (users db ++ [u]) (bookmarks db)).

(** [user.save()] on a document that is in the collection: the stored
    document with its [_id] is replaced. *)
Definition update_user (u : User) (us : list User) : list User :=
  (λ v, if decide (user_id v = user_id u) then u else v) <$> us.

Definition User_save (u : User) : Route () :=
  db ← getDb; putDb (mkDb (update_user u (users db)) (bookmarks db)).

(** The document [user] after the assignment [user.refreshTokens = ts]. *)
Definition with_refreshTokens (user : User) (ts : list string) : User :=
  mkUser (user_id user) (username user) (email user) (password user) ts.

(** [bookmark.save()] on a new document: an insert under the unique index
    on [_id]. *)
Definition Bookmark_save_new (b : Bookmark) : Route () :=
  db ← getDb;
  if existsb (λ c, bool_decide (bookmark_id c = bookmark_id b)) (bookmarks db)
  then throw DuplicateKey
  else putDb (mkDb (users db) (bookmarks db ++ [b])).

(** The order of MongoDB on a sort key that a document may lack: a missing
    key is below every number. *)
Definition key_lt (a b : option N) : bool :=
  match a, b with
  | None, Some _ => true
  | Some x, Some y => (x <? y)%N
  | _, None => false
  end.

(** [.sort({ key: -1 })]: descending, documents with equal keys left in
    the order the query found them. *)
Fixpoint insert_desc {A} (key : A → option N) (x : A) (l : list A) : list A :=
  match l with
  | [] => [x]
  | y :: l' =>
      if key_lt (key x) (key y) then y :: insert_desc key x l'
      else x :: y :: l'
  end.

Definition sort_desc {A} (key : A → option N) (l : list A) : list A :=
  foldr (insert_desc key) [] l.

(** The [createdAt] of a stored bookmark, the key the list route sorts on:
    [BookmarkSchema] declares no such path and no [timestamps], and
    Mongoose drops a body field outside the schema, so no stored bookmark
    has one. *)
Definition createdAt (b : Bookmark) : option N := None.

(** [Bookmark.find(filter).sort({ createdAt: -1 })]. *)
Definition Bookmark_find_sorted (filter : Bookmark → bool)
  : Route (list Bookmark) :=
  db ← getDb; mret (sort_desc createdAt (List.filter filter (bookmarks db))).

(** The first element that satisfies [p], and the list without it. *)
Fixpoint remove_first {A} (p : A → bool) (l : list A) : option (A * list A) :=
  match l with
  | [] => None
  | x :: l' =>
      if p x then Some (x, l')
      else match remove_first p l' with
           | Some (y, r) => Some (y, x :: r)
           | None => None
           end
  end.

(** [Bookmark.findOneAndDelete(filter)]. *)
Definition Bookmark_findOneAndDelete (filter : Bookmark → bool)
  : Route (option Bookmark) :=
  db ← getDb;
  match remove_first filter (bookmarks db) with
  | Some (b, rest) => putDb (mkDb (users db) rest) ;; mret (Some b)
  | None => mret None
  end.

(** ** Request bodies *)

(** The values of a JSON body as the bookmark schema tells them apart: a
    string, an array of strings, and a string that is the hex form of an
    ObjectId (also what [req.user.userId] is). *)
Inductive JsValue :=
  | JStr (s : string)
  | JArr (l : list string)
  | JId (id : ObjectId).

(** Mongoose's casts to the schema types; [None] is a CastError. *)
Definition castString (v : JsValue) : option string :=
  match v with
  | JStr s => Some s
  | JId id => Some id
  | JArr _ => None
  end.

Definition castStringArray (v : JsValue) : option (list string) :=
  match v with
  | JArr l => Some l
  | JStr s => Some [s]
  | JId id => Some [id]
  end.

Definition castObjectId (v : JsValue) : option ObjectId :=
  match v with
  | JId id => Some id
  | JStr _ | JArr _ => None
  end.

(** The cast of a string in a query filter to an ObjectId path, which is
    [new ObjectId(string)]: a string of 24 hex digits is the ObjectId it
    spells, whatever the case of its letters, and any other string is a
    CastError. The result is in the lower-case form [toString()] gives,
    the form of the stored ids. (Before version 6, bson also read a string
    of 12 characters as twelve raw bytes; the cast here is the current
    one.) *)
Definition is_hex_digit (a : ascii) : bool :=
  let n := nat_of_ascii a in
  Nat.leb 48 n && Nat.leb n 57 || Nat.leb 65 n && Nat.leb n 70
  || Nat.leb 97 n && Nat.leb n 102.

Definition to_lower_hex (a : ascii) : ascii :=
  let n := nat_of_ascii a in
  if Nat.leb 65 n && Nat.leb n 70 then ascii_of_nat (n + 32) else a.

Fixpoint map_string (f : ascii → ascii) (s : string) : string :=
  match s with
  | EmptyString => EmptyString
  | String a s' => String (f a) (map_string f s')
  end.

Definition ObjectId_of_hex (s : string) : option ObjectId :=
  if Nat.eqb (String.length s) 24
     && forallb is_hex_digit (list_ascii_of_string s)
  then Some (map_string to_lower_hex s)
  else None.

(** A path of type [String] without a default: absent stays absent. *)
Definition cast_path (v : option JsValue) : option (option string) :=
  match v with
  | None => Some None
  | Some x => Some <$> castString x
  end.

(** [new Bookmark(obj)] followed by the validation [save()] runs: the
    document, or [None] when a path fails its cast or the required
    [userId] is missing. [fresh] is the [_id] given to a document whose
    object names none. Keys outside the schema are dropped. *)
Definition new_Bookmark (fresh : ObjectId) (obj : gmap string JsValue)
  : option Bookmark :=
  id ← default (Some fresh) (castObjectId <$> obj !! "_id");
  title ← cast_path (obj !! "title");
  url ← cast_path (obj !! "url");
  category ← cast_path (obj !! "category");
  tags ← default (Some []) (castStringArray <$> obj !! "tags");
  notes ← cast_path (obj !! "notes");
  userId ← obj !! "userId" ≫= castObjectId;
  Some (mkBookmark id title url category tags notes userId).

(** [s.split(c)] for a one-character separator. *)
Fixpoint split (c : ascii) (s : string) : list string :=
  match s with
  | EmptyString => [EmptyString]
  | String a s' =>
      if Ascii.eqb a c then EmptyString :: split c s'
      else match split c s' with
           | w :: ws => String a w :: ws
           | [] => [String a EmptyString]
           end
  end.

(** ** The server *)

(** The requests of the HTTP surface, each with the parts of it the handler
    reads. A body field that a handler tests for presence is an [option];
    the others are fields of a body that carries them as strings. *)
Inductive Request :=
  | PostSignup (username email password : option string)
  | PostLogin (email password : string)
  | PostRefresh (refreshToken : option string)
  | PostLogout (refreshToken : string)
  | PostLogoutAll (authorization : option string)
  | PostBookmark (authorization : option string) (body : gmap string JsValue)
  | GetBookmarks (authorization : option string)
  | DeleteBookmark (authorization : option string) (id : string).

Section Server.
Context `{Jwt} `{Bcrypt}.
Variable env : ProcessEnv.
Variable rt : Runtime.

(** [expiresIn: "15m"] and [expiresIn: "7d"], in seconds. *)
Definition expiresIn_15m : N := 15 * 60.
Definition expiresIn_7d : N := 7 * 24 * 60 * 60.

Definition generateAccessToken (user : User) : Route string :=
  if negb (truthy (JWT_SECRET env))
  then throw (JsError "Missing JWT_SECRET in .env file")
  else mret (jwt_sign (user_id user) (Some (email user))
               (default "" (JWT_SECRET env)) (now rt) expiresIn_15m).

(** The caller's [user] object is mutated by the [push]; no caller reads
    it afterwards, so only the token is returned. *)
Definition generateRefreshToken (user : User) : Route string :=
  if negb (truthy (REFRESH_SECRET env))
  then throw (JsError "Missing REFRESH_SECRET in .env file")
  else
    let refreshToken :=
      jwt_sign (user_id user) None
        (default "" (REFRESH_SECRET env)) (now rt) expiresIn_7d in
    User_save
      (with_refreshTokens user (refreshTokens user ++ [refreshToken])) ;;
    mret refreshToken.

(** The middleware: [Value decoded] is [req.user = decoded; next()]. *)
Definition authenticateUser (authorization : option string)
  : Route Claims :=
  let token := authorization ≫= (λ a, split " " a !! 1) in
  if negb (truthy token)
  then send 401 (Message "Unauthorized - No token provided")
  else
    match jwt_verify (default "" token) (JWT_SECRET env) (now rt) with
    | Some decoded => mret decoded
    | None => send 403 (Message "Invalid or expired token")
    end.

(** [app.METHOD(path, authenticateUser, handler)]. The middleware has
    its own [try]; were it to throw, Express would answer 500. *)
Definition protected (authorization : option string)
    (handler : Claims → Db → Db * Reply) (db : Db) : Db * Reply :=
  match authenticateUser authorization db with
  | (db', Value user) => handler user db'
  | (db', Sent r) => (db', r)
  | (db', Thrown e) => (db', Json 500 (Failure e))
  end.

Definition signup (body_username body_email body_password : option string)
  : Db → Db * Reply :=
  try_catch (
    if negb (truthy body_username) || negb (truthy body_email)
       || negb (truthy body_password)
    then send 400
           (Message "All fields (username, email, password) are required.")
    else
      let uname := default "" body_username in
      let mail := default "" body_email in
      let pw := default "" body_password in
      (* duplicate credentials validation *)
      existingUser ← User_findOne (λ u,
        bool_decide (username u = uname) || bool_decide (email u = mail));
      match existingUser with
      | Some existing =>
          if bool_decide (username existing = uname)
          then send 400 (Message "Username is already taken")
          else if bool_decide (email existing = mail)
          then send 400 (Message "Email is already in use")
          else mret ()
      | None => mret ()
      end ;;
      (* duplicate password validation *)
      existingUsers ← User_find;
      for_of existingUsers (λ user,
        if bcrypt_compare pw (password user)
        then send 400 (Message "This password has already been used")
        else mret ()) ;;
      (* rest of code *)
      let hashedPassword := bcrypt_hash pw 10 (genSalt rt) in
      let newUser := mkUser (newObjectId rt) uname mail hashedPassword [] in
      User_save_new newUser ;;
      accessToken ← generateAccessToken newUser;
      refreshToken ← generateRefreshToken newUser;
      send 201 (Session "User registered" accessToken refreshToken)).

Definition login (body_email body_password : string) : Db → Db * Reply :=
  try_catch (
    user ← User_findOne (λ u, bool_decide (email u = body_email));
    match user with
    | None => send 400 (Message "User with this email does not exists")
    | Some user =>
        if negb (bcrypt_compare body_password (password user))
        then send 400 (Message "Invalid password")
        else
          accessToken ← generateAccessToken user;
          refreshToken ← generateRefreshToken user;
          send 200 (Session "Login successful" accessToken refreshToken)
    end).

(** [{ refreshTokens: t }] on an array path: the array holds [t]. *)
Definition holds_token (t : string) (u : User) : bool :=
  bool_decide (t ∈ refreshTokens u).

Definition refresh (refreshToken : option string) : Db → Db * Reply :=
  try_catch (
    if negb (truthy refreshToken)
    then send 401 (Message "Unauthorized - No refresh token provided")
    else
      let token := default "" refreshToken in
      user ← User_findOne (holds_token token);
      match user with
      | None => send 403 (Message "Invalid refresh token")
      | Some user =>
          match jwt_verify token (REFRESH_SECRET env) (now rt) with
          | None => send 403 (Message "Invalid refresh token")
          | Some decoded =>
              uncaught (
                newAccessToken ← generateAccessToken user;
                send 200 (AccessToken newAccessToken))
          end
      end).

Definition logout (refreshToken : string) : Db → Db * Reply :=
  try_catch (
    user ← User_findOne (holds_token refreshToken);
    match user with
    | None => send 403 (Message "Invalid refresh token")
    | Some user =>
        User_save (with_refreshTokens user
          (List.filter (λ token, negb (String.eqb token refreshToken))
             (refreshTokens user))) ;;
        send 200 (Message "Logged out successfully")
    end).

Definition logoutAll (req_user : Claims) : Db → Db * Reply :=
  try_catch (
    user ← User_findById (tok_userId req_user);
    match user with
    | None => send 403 (Message "User not found")
    | Some user =>
        User_save (with_refreshTokens user []) ;;
        send 200 (Message "Logged out from all devices")
    end).

(** Bookmark routes. [<["userId" := ..]> body] is the object literal
    [{ ...req.body, userId: req.user.userId }]. *)
Definition createBookmark (body : gmap string JsValue) (req_user : Claims)
  : Db → Db * Reply :=
  try_catch (
    match new_Bookmark (newObjectId rt)
            (<["userId" := JId (tok_userId req_user)]> body) with
    | None => throw ValidationError
    | Some newBookmark =>
        Bookmark_save_new newBookmark ;;
        send 201 (BookmarkDoc newBookmark)
    end).

Definition listBookmarks (req_user : Claims) : Db → Db * Reply :=
  try_catch (
    bookmarks ← Bookmark_find_sorted (λ b,
      bool_decide (userId b = tok_userId req_user));
    send 200 (BookmarkDocs bookmarks)).

(** [id] is [req.params.id], a string. Mongoose casts the filter
    [{ _id: id, userId: req.user.userId }] to the schema before the query
    runs; an [id] that is no ObjectId rejects the query with a CastError,
    which the handler's [catch] answers. *)
Definition deleteBookmark (id : string) (req_user : Claims)
  : Db → Db * Reply :=
  try_catch (
    match ObjectId_of_hex id with
    | None => throw CastError
    | Some oid =>
        deletedBookmark ← Bookmark_findOneAndDelete (λ b,
          bool_decide (bookmark_id b = oid)
          && bool_decide (userId b = tok_userId req_user));
        match deletedBookmark with
        | None => send 404 (Message "Bookmark not found or unauthorized")
        | Some _ => send 200 (Message "Bookmark deleted successfully")
        end
    end).

(** The routes of [app]. *)
Definition app (req : Request) : Db → Db * Reply :=
  match req with
  | PostSignup u e p => signup u e p
  | PostLogin e p => login e p
  | PostRefresh t => refresh t
  | PostLogout t => logout t
  | PostLogoutAll a => protected a logoutAll
  | PostBookmark a body => protected a (createBookmark body)
  | GetBookmarks a => protected a listBookmarks
  | DeleteBookmark a id => protected a (deleteBookmark id)
  end.
End Server.

(** ** An implementation of the two interfaces

    Tokens that spell out what they sign, and a hash that keeps the
    password: enough to run the server on concrete requests, and a model
    of the laws. *)

Fixpoint bits_of_pos (p : positive) : string :=
  match p with
  | xH => "1"
  | xO q => String "0" (bits_of_pos q)
  | xI q => String "1" (bits_of_pos q)
  end.

Fixpoint pos_of_bits (s : string) : option positive :=
  match s with
  | EmptyString => None
  | String c EmptyString => if Ascii.eqb c "1" then Some xH else None
  | String c s' =>
      if Ascii.eqb c "0" then xO <$> pos_of_bits s'
      else if Ascii.eqb c "1" then xI <$> pos_of_bits s'
      else None
  end.

(** The token of a payload, a secret and the two timestamps: the binary
    numeral that codes the tuple. *)
Definition plain_sign (uid : ObjectId) (em : option string) (k : string)
    (t ttl : N) : string :=
  bits_of_pos (encode (uid, em, k, t, (t + ttl)%N)).

Definition plain_open (tok : string)
  : option (ObjectId * option string * string * N * N) :=
  pos_of_bits tok ≫= decode.

Definition plain_verify (tok : string) (secret : option string) (t' : N)
  : option Claims :=
  match secret, plain_open tok with
  | Some k', Some (uid, em, k, t, e) =>
      if bool_decide (k = k') && (t' <? e)%N
      then Some (mkClaims uid em t e) else None
  | _, _ => None
  end.

Definition plain_jwt : Jwt :=
  {| jwt_sign := plain_sign; jwt_verify := plain_verify |}.

Definition plain_bcrypt : Bcrypt :=
  {| bcrypt_hash := λ pw _ _, String.append "$2a$" pw;
     bcrypt_compare := λ pw h, String.eqb (String.append "$2a$" pw) h |}.

(** ** A run of the server

    Two users sign up, Ann logs in twice (once within the second of her
    signup), both store a bookmark, and Ann stores a second one. *)

(** The ids of the run: the users Ann, Bob and Carol, the three bookmarks,
    and two ids that are generated and not stored. *)
Definition ann_id : ObjectId := "64a7f30000000000000000a1".
Definition bob_id : ObjectId := "64a7f30000000000000000a2".
Definition carol_id : ObjectId := "64a7f30000000000000000a3".
Definition spare_id : ObjectId := "64a7f30000000000000000a4".
Definition rocq_id : ObjectId := "64a7f30000000000000000b1".
Definition mongoose_id : ObjectId := "64a7f30000000000000000b2".
Definition stdpp_id : ObjectId := "64a7f30000000000000000b3".

Definition env0 : ProcessEnv :=
  mkEnv (Some "access-secret") (Some "refresh-secret").

Definition at_time (t : N) (fresh : ObjectId) : Runtime :=
  mkRuntime t fresh "salt".

Definition serve : ProcessEnv → Runtime → Request → Db → Db * Reply :=
  @app plain_jwt plain_bcrypt.

Definition refresh_token_of (uid : ObjectId) (t : N) : string :=
  plain_sign uid None "refresh-secret" t expiresIn_7d.

Definition access_token_of (uid : ObjectId) (mail : string) (t : N) : string :=
  plain_sign uid (Some mail) "access-secret" t expiresIn_15m.

Definition bearer (tok : string) : option string :=
  Some (String.append "Bearer " tok).

Definition db_ann : Db :=
  (serve env0 (at_time 1000 ann_id)
     (PostSignup (Some "ann") (Some "ann@example.org") (Some "correct horse"))
     emptyDb).1.

Definition db_two : Db :=
  (serve env0 (at_time 1001 bob_id)
     (PostSignup (Some "bob") (Some "bob@example.org") (Some "battery staple"))
     db_ann).1.

Definition db_same_second : Db :=
  (serve env0 (at_time 1000 "-")
     (PostLogin "ann@example.org" "correct horse") db_two).1.

Definition db_sessions : Db :=
  (serve env0 (at_time 2000 "-")
     (PostLogin "ann@example.org" "correct horse") db_same_second).1.

Definition ann_bookmark : gmap string JsValue :=
  <["title" := JStr "Rocq"]>
    (<["url" := JStr "https://rocq-prover.org"]>
       (<["tags" := JArr ["proofs"]]> ∅)).

Definition bob_bookmark : gmap string JsValue :=
  <["title" := JStr "Mongoose"]> (<["userId" := JId ann_id]> ∅).

Definition db_bookmarks : Db :=
  (serve env0 (at_time 2200 mongoose_id)
     (PostBookmark (bearer (access_token_of bob_id "bob@example.org" 2100))
        bob_bookmark)
     (serve env0 (at_time 2100 rocq_id)
        (PostBookmark (bearer (access_token_of ann_id "ann@example.org" 2000))
           ann_bookmark)
        db_sessions).1).1.

Definition db_reading_list : Db :=
  (serve env0 (at_time 2600 stdpp_id)
     (PostBookmark (bearer (access_token_of ann_id "ann@example.org" 2000))
        (<["title" := JStr "stdpp"]> ∅))
     db_bookmarks).1.

Definition ann : User :=
  mkUser ann_id "ann" "ann@example.org" "$2a$correct horse"
    [refresh_token_of ann_id 1000; refresh_token_of ann_id 1000;
     refresh_token_of ann_id 2000].

Definition bob : User :=
  mkUser bob_id "bob" "bob@example.org" "$2a$battery staple"
    [refresh_token_of bob_id 1001].

Definition ann_claims (t : N) : Claims :=
  mkClaims ann_id (Some "ann@example.org") t (t + expiresIn_15m)%N.

(** Carol signs up at time 3000, on the database of the sessions. *)
Definition carol : User :=
  mkUser carol_id "carol" "carol@example.org" "$2a$tr0ub4dor"
    [refresh_token_of carol_id 3000].

(** Ann as stored before her login at time 2000. *)
Definition ann_before : User :=
  with_refreshTokens ann
    [refresh_token_of ann_id 1000; refresh_token_of ann_id 1000].

(** A process whose access secret is not set. *)
Definition env_no_access : ProcessEnv := mkEnv None (Some "refresh-secret").

Definition rocq_bookmark : Bookmark :=
  mkBookmark rocq_id (Some "Rocq") (Some "https://rocq-prover.org") None
    ["proofs"] None ann_id.

Definition ann_bearer : option string :=
  bearer (access_token_of ann_id "ann@example.org" 2000).

(** ** The predicates of the properties *)

Section Predicates.
Context `{Jwt} `{Bcrypt}.

(** No stored collection of refresh tokens holds [t]. *)
Definition unknown_token (t : string) (db : Db) : Prop :=
  Forall (λ u, t ∉ refreshTokens u) (users db).

(** The bookmark has the given id and is owned by the caller. *)
Definition deletable (id : ObjectId) (c : Claims) (b : Bookmark) : Prop :=
  bookmark_id b = id ∧ userId b = tok_userId c.

(** The caller owns the bookmark. *)
Definition owned_by (c : Claims) (b : Bookmark) : bool :=
  bool_decide (userId b = tok_userId c).

(** [t] is a refresh token signed for the user [uid]. *)
Definition issued_for (uid : ObjectId) (t : string) : Prop :=
  ∃ k t0, k ≠ "" ∧ t = jwt_sign uid None k t0 expiresIn_7d.

(** Ids, usernames and emails are unique, every stored refresh token was
    signed for the user who holds it, and bookmark ids are unique. *)
Record db_ok (db : Db) : Prop := {
  ok_ids : NoDup (user_id <$> users db);
  ok_usernames : NoDup (username <$> users db);
  ok_emails : NoDup (email <$> users db);
  ok_tokens :
    Forall (λ u, Forall (issued_for (user_id u)) (refreshTokens u))
      (users db);
  ok_bookmark_ids : NoDup (bookmark_id <$> bookmarks db);
}.

(** The databases the server can be in: it starts empty and serves
    requests one after the other, each with its own view of the
    environment, the clock and the generators. *)
Inductive reachable : Db → Prop :=
  | reachable_empty : reachable emptyDb
  | reachable_step env rt req db :
      reachable db → reachable (app env rt req db).1.
End Predicates.

(** What the signup-then-login properties assume of bcryptjs: a password
    matches a hash made of it, whatever the rounds and the salt. *)
Class BcryptLaws `{Bcrypt} : Prop := {
  bcrypt_compare_hash (pw : string) (rounds : nat) (salt : string) :
    bcrypt_compare pw (bcrypt_hash pw rounds salt) = true;
}.

(** ** Running a handler *)

(** Unfolds the monad and the store calls of a handler body. *)
Ltac run_route :=
  unfold try_catch, uncaught, User_findById, User_findOne, User_find,
    User_save, User_save_new, Bookmark_save_new, Bookmark_find_sorted,
    Bookmark_findOneAndDelete, send, throw, getDb, putDb,
    mbind, mret, Route_bind, Route_ret;
  cbn beta iota zeta.

(** Closes a goal about the run by evaluation. *)
Ltac by_run := vm_compute; first [reflexivity | discriminate | done].

Ltac decide_by_run := apply (bool_decide_unpack _); vm_compute; exact I.

(** Closes a decidable hypothesis about the run, or an equation. *)
Ltac run_hyp := first [decide_by_run | by_run].

(** * Properties *)

(** ** The implementation satisfies the laws *)

Lemma bits_of_pos_nonempty (p : positive) : bits_of_pos p ≠ "".
Proof. by destruct p. Qed.

Lemma pos_of_bits_cons (c : ascii) (s : string) :
  s ≠ "" →
  pos_of_bits (String c s) =
    if Ascii.eqb c "0" then xO <$> pos_of_bits s
    else if Ascii.eqb c "1" then xI <$> pos_of_bits s
    else None.
Proof. by destruct s. Qed.

Lemma pos_of_bits_of_pos (p : positive) : pos_of_bits (bits_of_pos p) = Some p.
Proof.
  induction p as [q IH|q IH|]; [| |done];
    cbn [bits_of_pos]; rewrite pos_of_bits_cons by apply bits_of_pos_nonempty;
    by rewrite IH.
Qed.

Lemma bits_of_pos_no_space (p : positive) :
  has_char " " (bits_of_pos p) = false.
Proof. induction p; simpl; done. Qed.

Lemma plain_open_sign (uid : ObjectId) (em : option string) (k : string)
    (t ttl : N) :
  plain_open (plain_sign uid em k t ttl) = Some (uid, em, k, t, (t + ttl)%N).
Proof.
  unfold plain_open, plain_sign.
  rewrite pos_of_bits_of_pos. simpl. apply decode_encode.
Qed.

Lemma plain_jwt_laws : @JwtLaws plain_jwt.
Proof.
  split; simpl.
  - intros uid em k t ttl t' _ Hlt. unfold plain_verify.
    rewrite plain_open_sign, bool_decide_eq_true_2 by done. simpl.
    by destruct (N.ltb_spec t' (t + ttl)); [|lia].
  - intros uid em k t ttl sk t' _ Hle. unfold plain_verify.
    destruct sk as [k'|]; [|done]. rewrite plain_open_sign.
    destruct (N.ltb_spec t' (t + ttl)); [lia|].
    by rewrite andb_false_r.
  - intros uid em k t ttl uid' em' k' t' ttl' _ _ Heq.
    apply (f_equal plain_open) in Heq. rewrite !plain_open_sign in Heq.
    simplify_eq. repeat split; lia.
  - intros. apply bits_of_pos_nonempty.
  - intros. apply bits_of_pos_no_space.
Qed.

(** The run is what its definition says. *)
Lemma db_bookmarks_eq :
  db_bookmarks
  = mkDb [ann; bob]
      [mkBookmark rocq_id (Some "Rocq") (Some "https://rocq-prover.org") None
         ["proofs"] None ann_id;
       mkBookmark mongoose_id (Some "Mongoose") None None [] None bob_id].
Proof. vm_compute. reflexivity. Qed.

Section Properties.
Context `{Jwt} `{Bcrypt}.
Implicit Types (env : ProcessEnv) (rt : Runtime) (db : Db) (u : User).

Lemma truthy_Some (s : string) : s ≠ "" → truthy (Some s) = true.
Proof. intros Hs. simpl. by destruct (String.eqb_spec s ""). Qed.

Lemma truthy_inv (x : option string) :
  truthy x = true → ∃ s, x = Some s ∧ s ≠ "".
Proof.
  destruct x as [s|]; [|done]. simpl.
  destruct (String.eqb_spec s ""); [done|]. by exists s.
Qed.

Lemma generateAccessToken_run env rt u db :
  generateAccessToken env rt u db =
    if truthy (JWT_SECRET env)
    then (db, Value (jwt_sign (user_id u) (Some (email u))
                       (default "" (JWT_SECRET env)) (now rt)
                       expiresIn_15m))
    else (db, Thrown (JsError "Missing JWT_SECRET in .env file")).
Proof. unfold generateAccessToken. by destruct (truthy _). Qed.

Lemma generateRefreshToken_run env rt u db :
  generateRefreshToken env rt u db =
    if truthy (REFRESH_SECRET env)
    then
      let tok := jwt_sign (user_id u) None (default "" (REFRESH_SECRET env))
                   (now rt) expiresIn_7d in
      (mkDb (update_user (with_refreshTokens u (refreshTokens u ++ [tok]))
               (users db)) (bookmarks db),
       Value tok)
    else (db, Thrown (JsError "Missing REFRESH_SECRET in .env file")).
Proof. unfold generateRefreshToken. by destruct (truthy _). Qed.

(** The password scan of the signup route: it answers 400 at the first
    stored hash the password matches, and otherwise falls through. *)
Lemma password_scan_run (pw : string) (us : list User) db :
  for_of us (λ user,
    if bcrypt_compare pw (password user)
    then send 400 (Message "This password has already been used")
    else mret ()) db =
  if existsb (λ user, bcrypt_compare pw (password user)) us
  then (db, Sent (Json 400 (Message "This password has already been used")))
  else (db, Value ()).
Proof.
  induction us as [|u us IH]; [done|]. simpl. run_route.
  destruct (bcrypt_compare pw (password u)); [done|]. simpl. apply IH.
Qed.

(** *** Refresh *)

Lemma find_holds_token_None (t : string) db :
  unknown_token t db → List.find (holds_token t) (users db) = None.
Proof.
  unfold unknown_token. induction 1 as [|u us Hu _ IH]; [done|].
  simpl. unfold holds_token at 1. by rewrite bool_decide_eq_false_2.
Qed.

(** The refresh route, case by case. *)
Lemma refresh_run env rt (t : option string) db :
  refresh env rt t db =
    (db,
     if negb (truthy t)
     then Json 401 (Message "Unauthorized - No refresh token provided")
     else
       match List.find (holds_token (default "" t)) (users db) with
       | None => Json 403 (Message "Invalid refresh token")
       | Some user =>
           match jwt_verify (default "" t) (REFRESH_SECRET env) (now rt) with
           | None => Json 403 (Message "Invalid refresh token")
           | Some _ =>
               if truthy (JWT_SECRET env)
               then Json 200 (AccessToken
                      (jwt_sign (user_id user) (Some (email user))
                         (default "" (JWT_SECRET env)) (now rt)
                         expiresIn_15m))
               else NoReply
           end
       end).
Proof.
  unfold refresh. destruct (truthy t); run_route; [|done]. simpl.
  destruct (List.find _ _); [|done].
  destruct (jwt_verify _ _ _); [|done].
  rewrite generateAccessToken_run. by destruct (truthy (JWT_SECRET env)).
Qed.

(** C1 (as amended): a refresh request whose token is a non-empty string
    held by no user's refresh-token collection is answered 403 "Invalid
    refresh token", whatever [jwt.verify] would say of the token; no
    access token is issued and the database is left as it was. *)
Theorem refresh_unknown_token env rt (t : string) db :
  t ≠ "" → unknown_token t db →
  refresh env rt (Some t) db
  = (db, Json 403 (Message "Invalid refresh token")).
Proof.
  intros Ht Hu. rewrite refresh_run, truthy_Some by done. simpl.
  by rewrite find_holds_token_None.
Qed.

(** The refresh route never writes to the database. *)
Lemma refresh_db_unchanged env rt (t : option string) db :
  (refresh env rt t db).1 = db.
Proof. by rewrite refresh_run. Qed.

(** C5: a refresh request answered with status 200 leaves the database,
    and so the owner's refresh-token collection, unchanged (nothing is
    rotated, removed or appended), and its body is exactly one access
    token, the one signed for the user who holds the refresh token. *)
Theorem refresh_success_only_access_token env rt (t : option string)
    db db' (body : Body) :
  refresh env rt t db = (db', Json 200 body) →
  db' = db ∧
  ∃ user,
    List.find (holds_token (default "" t)) (users db) = Some user ∧
    body = AccessToken
             (jwt_sign (user_id user) (Some (email user))
                (default "" (JWT_SECRET env)) (now rt) expiresIn_15m).
Proof.
  rewrite refresh_run. destruct (truthy t); simpl; [|done].
  destruct (List.find _ _) as [user|]; [|done].
  destruct (jwt_verify _ _ _); [|done].
  destruct (truthy (JWT_SECRET env)); [|done].
  intros [= <- <-]. split; [done|]. by exists user.
Qed.

(** *** Signup *)

(** C2: a signup request whose plaintext password [bcrypt.compare]
    matches against the stored hash of some existing user, whatever that
    user's username and email, is answered 400 with a message, and the
    database is left as it was: no user record is created. *)
Theorem signup_rejects_used_password env rt
    (body_username body_email : option string) (pw : string) db :
  (∃ u, u ∈ users db ∧ bcrypt_compare pw (password u) = true) →
  ∃ msg, signup env rt body_username body_email (Some pw) db
         = (db, Json 400 (Message msg)).
Proof.
  intros (u & Hu & Hpw). unfold signup.
  destruct (negb (truthy body_username) || negb (truthy body_email)
            || negb (truthy (Some pw))) eqn:Hreq; run_route.
  { by eexists. }
  simpl. destruct (List.find _ _) as [existing|]; simpl.
  - destruct (bool_decide (username existing = _)); [by eexists|].
    destruct (bool_decide (email existing = _)); [by eexists|].
    simpl. rewrite password_scan_run.
    rewrite (proj2 (existsb_exists _ _)); [by eexists|].
    exists u. by rewrite <- list_elem_of_In.
  - rewrite password_scan_run.
    rewrite (proj2 (existsb_exists _ _)); [by eexists|].
    exists u. by rewrite <- list_elem_of_In.
Qed.

(** *** The Auth Gate *)

Lemma split_no_sep (c : ascii) (s : string) :
  has_char c s = false → split c s = [s].
Proof.
  induction s as [|a s IH]; [done|]. simpl.
  destruct (Ascii.eqb a c); [done|]. intros Hs. by rewrite IH.
Qed.

Lemma split_word (c : ascii) (w s : string) :
  has_char c w = false →
  split c (String.append w (String c s)) = w :: split c s.
Proof.
  induction w as [|a w IH]; simpl.
  - by rewrite Ascii.eqb_refl.
  - destruct (Ascii.eqb a c); [done|]. intros Hw. by rewrite IH.
Qed.

(** The token the gate reads off an [Authorization: Bearer <token>]
    header. *)
Lemma bearer_token (tok : string) :
  has_char " " tok = false →
  split " " (String.append "Bearer " tok) !! 1 = Some tok.
Proof.
  intros Htok. change (String.append "Bearer " tok)
    with (String.append "Bearer" (String " " tok)).
  rewrite split_word by done. by rewrite split_no_sep.
Qed.

Lemma protected_accepted env rt (a : option string)
    (handler : Claims → Db → Db * Reply) db (c : Claims) :
  authenticateUser env rt a db = (db, Value c) →
  protected env rt a handler db = handler c db.
Proof. unfold protected. by intros ->. Qed.

Lemma authenticateUser_db_unchanged env rt (a : option string) db :
  (authenticateUser env rt a db).1 = db.
Proof.
  unfold authenticateUser. destruct (truthy _); run_route; [|done].
  simpl. by destruct (jwt_verify _ _ _).
Qed.

(** C7: on every request the gate leaves the database as it was and ends
    in one of three ways: 401 when it reads no token (no Authorization
    header, or an empty token after "Bearer "), 403 when [jwt.verify]
    rejects the token it read (a bad signature, an expired token), and
    otherwise the handler, run on the database as it was with the decoded
    payload as [req.user]. A response of the gate is the response of the
    protected route. *)
Theorem authenticateUser_contract env rt (a : option string) db :
  (authenticateUser env rt a db).1 = db ∧
  (a = None →
   (authenticateUser env rt a db).2
   = Sent (Json 401 (Message "Unauthorized - No token provided"))) ∧
  (∀ tok, a = Some (String.append "Bearer " tok) →
     has_char " " tok = false →
     (authenticateUser env rt a db).2 =
       if decide (tok = "")
       then Sent (Json 401 (Message "Unauthorized - No token provided"))
       else match jwt_verify tok (JWT_SECRET env) (now rt) with
            | None => Sent (Json 403 (Message "Invalid or expired token"))
            | Some decoded => Value decoded
            end) ∧
  ((authenticateUser env rt a db).2
     = Sent (Json 401 (Message "Unauthorized - No token provided")) ∨
   (authenticateUser env rt a db).2
     = Sent (Json 403 (Message "Invalid or expired token")) ∨
   ∃ tok decoded,
     jwt_verify tok (JWT_SECRET env) (now rt) = Some decoded ∧
     (authenticateUser env rt a db).2 = Value decoded) ∧
  (∀ handler,
     match (authenticateUser env rt a db).2 with
     | Value decoded => protected env rt a handler db = handler decoded db
     | Sent r => protected env rt a handler db = (db, r)
     | Thrown _ => False
     end).
Proof.
  split; [apply authenticateUser_db_unchanged|].
  split; [by intros ->|].
  split.
  { intros tok -> Htok. unfold authenticateUser.
    assert (Some (String.append "Bearer " tok)
              ≫= (λ a, split " " a !! 1) = Some tok) as ->
      by by apply bearer_token.
    run_route. simpl.
    destruct (String.eqb_spec tok ""); case_decide; try done.
    simpl. by destruct (jwt_verify _ _ _). }
  split.
  { unfold authenticateUser. destruct (truthy _); run_route; [|by left].
    simpl. destruct (jwt_verify _ _ _) eqn:Hv; [|by right; left].
    right; right. by eexists _, _. }
  intros handler. unfold protected, authenticateUser.
  destruct (truthy _); run_route; [|done].
  simpl. by destruct (jwt_verify _ _ _).
Qed.

(** *** Bookmarks *)

Lemma remove_first_Some {A} (p : A → bool) (l : list A) (b : A)
    (r : list A) :
  remove_first p l = Some (b, r) →
  ∃ l1 l2, l = l1 ++ b :: l2 ∧ r = l1 ++ l2 ∧ p b = true ∧
           Forall (λ x, p x = false) l1.
Proof.
  revert r. induction l as [|x l IH]; intros r; [done|]. simpl.
  destruct (p x) eqn:Hx.
  - intros [= <- <-]. by exists [], l.
  - destruct (remove_first p l) as [[y r']|]; [|done].
    intros [= <- <-]. destruct (IH r' eq_refl) as (l1 & l2 & -> & -> & ? & ?).
    exists (x :: l1), l2. by repeat split; [|constructor].
Qed.

Lemma remove_first_None {A} (p : A → bool) (l : list A) :
  remove_first p l = None ↔ Forall (λ x, p x = false) l.
Proof.
  induction l as [|x l IH]; simpl; [by split|].
  destruct (p x) eqn:Hx.
  - split; [done|]. intros Hall. inversion Hall; congruence.
  - destruct (remove_first p l) as [[y r']|].
    + split; [done|]. intros Hall. inversion Hall as [|? ? _ Hl].
      by apply IH in Hl.
    + split; [|done]. intros _. constructor; [done|]. by apply IH.
Qed.

Lemma deletable_filter (id : ObjectId) (c : Claims) (b : Bookmark) :
  bool_decide (bookmark_id b = id)
  && bool_decide (userId b = tok_userId c) = true
  ↔ deletable id c b.
Proof.
  unfold deletable.
  rewrite andb_true_iff, !bool_decide_eq_true. done.
Qed.

(** The delete route, case by case: the cast of the parameter, then the
    find-and-delete. *)
Lemma deleteBookmark_run (id : string) (c : Claims) db :
  deleteBookmark id c db =
    match ObjectId_of_hex id with
    | None => (db, Json 500 (Failure CastError))
    | Some oid =>
        match remove_first (λ b, bool_decide (bookmark_id b = oid)
                                 && bool_decide (userId b = tok_userId c))
                (bookmarks db) with
        | None =>
            (db, Json 404 (Message "Bookmark not found or unauthorized"))
        | Some (_, rest) =>
            (mkDb (users db) rest,
             Json 200 (Message "Bookmark deleted successfully"))
        end
    end.
Proof.
  unfold deleteBookmark. destruct (ObjectId_of_hex id) as [oid|]; run_route;
    [|done].
  by destruct (remove_first _ _) as [[b r]|].
Qed.

(** C6 (as amended): a delete request that passed the gate as [c] is
    answered by what its id parameter spells. When the parameter is not
    the hex form of an ObjectId, the answer is 500 and the database is
    left as it was. When it spells the ObjectId [oid], in either case of
    the letters, the answer is 200 exactly when some stored bookmark has
    the id [oid] and [c]'s user id as owner; then the first such
    bookmark, and nothing else, leaves the store. In every other case, be
    the id unknown or the bookmark another user's, the answer is the one
    message 404 "Bookmark not found or unauthorized" and the database is
    left as it was. *)
Theorem deleteBookmark_owner_only env rt (a : option string)
    (id : string) (c : Claims) db :
  authenticateUser env rt a db = (db, Value c) →
  (ObjectId_of_hex id = None →
   app env rt (DeleteBookmark a id) db
   = (db, Json 500 (Failure CastError))) ∧
  (∀ oid,
     ObjectId_of_hex id = Some oid →
     ((∃ b, b ∈ bookmarks db ∧ deletable oid c b) →
      ∃ l1 b l2,
        bookmarks db = l1 ++ b :: l2 ∧ deletable oid c b ∧
        Forall (λ x, ¬ deletable oid c x) l1 ∧
        app env rt (DeleteBookmark a id) db
        = (mkDb (users db) (l1 ++ l2),
           Json 200 (Message "Bookmark deleted successfully"))) ∧
     (¬ (∃ b, b ∈ bookmarks db ∧ deletable oid c b) →
      app env rt (DeleteBookmark a id) db
      = (db, Json 404 (Message "Bookmark not found or unauthorized")))).
Proof.
  intros Hgate. simpl. rewrite (protected_accepted _ _ _ _ _ _ Hgate).
  rewrite deleteBookmark_run. split; [by intros ->|].
  intros oid ->.
  destruct (remove_first _ (bookmarks db)) as [[b r]|] eqn:Hrm; simpl.
  - apply remove_first_Some in Hrm as (l1 & l2 & Hl & -> & Hb & Hl1).
    split.
    + intros _. exists l1, b, l2. split; [done|].
      split; [by apply deletable_filter|]. split; [|done].
      eapply List.Forall_impl; [|exact Hl1]. intros x Hx Hdel.
      apply deletable_filter in Hdel. congruence.
    + intros []. exists b. split; [|by apply deletable_filter].
      rewrite Hl. set_solver.
  - apply remove_first_None in Hrm. split.
    + intros (b & Hin & Hdel). apply deletable_filter in Hdel.
      rewrite List.Forall_forall in Hrm. apply list_elem_of_In in Hin.
      specialize (Hrm b Hin). congruence.
    + done.
Qed.




Lemma sort_desc_no_key {A} (key : A → option N) (l : list A) :
  (∀ x, key x = None) → sort_desc key l = l.
Proof.
  intros Hkey. induction l as [|x l IH]; [done|].
  unfold sort_desc in *. simpl. rewrite IH.
  destruct l as [|y l]; [done|]. simpl. by rewrite !Hkey.
Qed.

(** The list route answers with the caller's bookmarks in the order of
    the store, oldest first: the sort key is missing on every one. *)
Lemma listBookmarks_store_order (c : Claims) db :
  listBookmarks c db
  = (db, Json 200 (BookmarkDocs (List.filter (owned_by c) (bookmarks db)))).
Proof.
  unfold listBookmarks. run_route. simpl.
  by rewrite sort_desc_no_key.
Qed.

(** Two bookmarks created one after the other by the same caller come
    back in the order of their creation, after the older ones. *)
Lemma listBookmarks_after_creates rt1 rt2
    (body1 body2 : gmap string JsValue) (c : Claims) db db1 db2
    (b1 b2 : Bookmark) :
  createBookmark rt1 body1 c db = (db1, Json 201 (BookmarkDoc b1)) →
  createBookmark rt2 body2 c db1 = (db2, Json 201 (BookmarkDoc b2)) →
  listBookmarks c db2
  = (db2, Json 200 (BookmarkDocs
                      (List.filter (owned_by c) (bookmarks db) ++ [b1; b2]))).
Proof.
  assert (∀ rt body d d' b,
            createBookmark rt body c d = (d', Json 201 (BookmarkDoc b)) →
            userId b = tok_userId c ∧
            bookmarks d' = bookmarks d ++ [b]) as Hcreate.
  { intros rt body d d' b. unfold createBookmark.
    destruct (new_Bookmark _ _) as [b'|] eqn:Hnew; run_route; [|done].
    destruct (existsb _ _); [done|]. intros [= <- <-]. split; [|done].
    revert Hnew. unfold new_Bookmark. rewrite lookup_insert_eq.
    intros Hnew. by simplify_option_eq. }
  intros [Hb1 E1]%Hcreate [Hb2 E2]%Hcreate.
  rewrite listBookmarks_store_order, E2, E1, !List.filter_app. simpl.
  unfold owned_by at 2 3. rewrite !bool_decide_eq_true_2 by done.
  by rewrite <- app_assoc.
Qed.

(** ** The invariant of the database *)

Lemma find_Some_elem {A} (f : A → bool) (l : list A) (x : A) :
  List.find f l = Some x → x ∈ l ∧ f x = true.
Proof.
  intros Hf. apply find_some in Hf as [Hin Hx].
  by rewrite list_elem_of_In.
Qed.

Lemma NoDup_fmap_eq {A B} (f : A → B) (l : list A) (x y : A) :
  NoDup (f <$> l) → x ∈ l → y ∈ l → f x = f y → x = y.
Proof.
  induction l as [|z l IH]; [by intros _ ?%elem_of_nil|].
  rewrite fmap_cons, NoDup_cons. intros [Hz Hl] Hx Hy Hxy.
  apply elem_of_cons in Hx as [->|Hx]; apply elem_of_cons in Hy as [->|Hy].
  - done.
  - destruct Hz. rewrite Hxy. by apply list_elem_of_fmap_2.
  - destruct Hz. rewrite <- Hxy. by apply list_elem_of_fmap_2.
  - by apply IH.
Qed.

Lemma update_user_fmap {B} (f : User → B) (u : User) (us : list User) :
  (∀ v, v ∈ us → user_id v = user_id u → f v = f u) →
  f <$> update_user u us = f <$> us.
Proof.
  intros Hf. unfold update_user. rewrite <- list_fmap_compose.
  apply list_fmap_ext. intros i v Hv%list_elem_of_lookup_2. simpl.
  case_decide; [|done]. symmetry. by apply Hf.
Qed.

Lemma update_user_Forall (P : User → Prop) (u : User) (us : list User) :
  Forall P us → P u → Forall P (update_user u us).
Proof.
  intros Hus Hu. unfold update_user. apply Forall_fmap.
  eapply List.Forall_impl; [|exact Hus]. intros v Hv. simpl.
  by case_decide.
Qed.

(** Saving a stored user with another collection of tokens signed for
    that user keeps the invariant. *)
Lemma update_tokens_ok db (user : User) (ts : list string) :
  db_ok db → user ∈ users db → Forall (issued_for (user_id user)) ts →
  db_ok (mkDb (update_user (with_refreshTokens user ts) (users db))
           (bookmarks db)).
Proof.
  intros [Hid Hun Hem Htok Hbm] Hin Hts.
  assert (∀ v, v ∈ users db →
            user_id v = user_id (with_refreshTokens user ts) → v = user)
    as Hsame.
  { intros v Hv Hvid. by eapply (NoDup_fmap_eq user_id). }
  split; simpl; [| | | |done].
  - by rewrite update_user_fmap.
  - rewrite update_user_fmap; [done|]. by intros v Hv ->%Hsame.
  - rewrite update_user_fmap; [done|]. by intros v Hv ->%Hsame.
  - by apply update_user_Forall.
Qed.

Lemma existsb_false {A} (f : A → bool) (l : list A) :
  existsb f l = false → ∀ x, x ∈ l → f x = false.
Proof.
  intros Hf x Hx. destruct (f x) eqn:Hfx; [|done].
  rewrite <- Hf. symmetry. apply existsb_exists. exists x.
  by rewrite <- list_elem_of_In.
Qed.

Lemma insert_user_ok db (u : User) :
  db_ok db → existsb (User_conflict u) (users db) = false →
  refreshTokens u = [] →
  db_ok (mkDb (users db ++ [u]) (bookmarks db)).
Proof.
  intros [Hid Hun Hem Htok Hbm] Hfresh Hts.
  assert (∀ v, v ∈ users db →
            user_id v ≠ user_id u ∧ username v ≠ username u ∧
            email v ≠ email u) as Hne.
  { intros v Hv. pose proof (existsb_false _ _ Hfresh v Hv) as Hno.
    unfold User_conflict in Hno.
    rewrite !orb_false_iff, !bool_decide_eq_false in Hno. tauto. }
  assert (∀ {B} (f : User → B),
            NoDup (f <$> users db) → (∀ v, v ∈ users db → f v ≠ f u) →
            NoDup (f <$> (users db ++ [u]))) as Hnodup.
  { intros B f Hf Hfu. rewrite fmap_app. apply NoDup_app.
    split; [done|]. split; [|apply NoDup_singleton].
    intros x Hx Hxu. apply list_elem_of_fmap in Hx as (v & -> & Hv).
    apply list_elem_of_singleton in Hxu. by apply (Hfu v). }
  split; simpl; [| | | |done].
  - apply Hnodup; [done|]. intros v Hv. by apply Hne.
  - apply Hnodup; [done|]. intros v Hv. by apply Hne.
  - apply Hnodup; [done|]. intros v Hv. by apply Hne.
  - apply Forall_app. split; [done|]. constructor; [|done].
    rewrite Hts. constructor.
Qed.

Lemma issued_refresh_token env rt u :
  truthy (REFRESH_SECRET env) = true →
  issued_for (user_id u)
    (jwt_sign (user_id u) None (default "" (REFRESH_SECRET env)) (now rt)
       expiresIn_7d).
Proof.
  intros (k & -> & Hk)%truthy_inv. by exists k, (now rt).
Qed.

Lemma stored_tokens_issued db u :
  db_ok db → u ∈ users db → Forall (issued_for (user_id u)) (refreshTokens u).
Proof.
  intros [_ _ _ Htok _] Hu. rewrite Forall_forall in Htok. by apply Htok.
Qed.

(** Issuing a refresh token for a stored user keeps the invariant. *)
Lemma generateRefreshToken_ok env rt u db :
  db_ok db → u ∈ users db → db_ok (generateRefreshToken env rt u db).1.
Proof.
  intros Hok Hu. rewrite generateRefreshToken_run.
  destruct (truthy _) eqn:Hsecret; [|done]. simpl.
  apply update_tokens_ok; [done..|].
  apply Forall_app. split; [by apply (stored_tokens_issued db)|].
  constructor; [|done]. by apply issued_refresh_token.
Qed.

Lemma signup_ok env rt (bu be bp : option string) db :
  db_ok db → db_ok (signup env rt bu be bp db).1.
Proof.
  intros Hok. unfold signup.
  destruct (negb (truthy bu) || negb (truthy be) || negb (truthy bp));
    run_route; [done|].
  simpl.
  destruct (List.find _ (users db)) as [existing|];
    [destruct (bool_decide (username existing = _)); [done|];
     destruct (bool_decide (email existing = _)); [done|] |];
    simpl; rewrite password_scan_run;
    (destruct (existsb _ (users db)); [done|]);
    set (newUser := mkUser _ _ _ _ _);
    (destruct (existsb (User_conflict newUser) (users db)) eqn:Hfresh;
      [done|]);
    simpl;
    pose proof (insert_user_ok db newUser Hok Hfresh eq_refl) as Hok1;
    rewrite generateAccessToken_run;
    (destruct (truthy (JWT_SECRET env)); [|done]);
    pose proof (generateRefreshToken_ok env rt newUser _ Hok1) as Hok2;
    (destruct (generateRefreshToken env rt newUser _) as [db2 [tok|r|e]]);
    simpl in *; apply Hok2; set_solver.
Qed.

Lemma login_ok env rt (e p : string) db :
  db_ok db → db_ok (login env rt e p db).1.
Proof.
  intros Hok. unfold login. run_route. simpl.
  destruct (List.find _ (users db)) as [user|] eqn:Hfind; [|done].
  apply find_Some_elem in Hfind as [Hin _].
  destruct (bcrypt_compare p (password user)); [|done]. simpl.
  rewrite generateAccessToken_run.
  destruct (truthy (JWT_SECRET env)); [|done].
  pose proof (generateRefreshToken_ok env rt user db Hok Hin) as Hok2.
  by destruct (generateRefreshToken env rt user db) as [db2 [tok|r|x]].
Qed.

Lemma Forall_filter_keep {A} (P : A → Prop) (f : A → bool) (l : list A) :
  Forall P l → Forall P (List.filter f l).
Proof.
  induction 1 as [|x l Hx _ IH]; simpl; [done|].
  destruct (f x); [by constructor|done].
Qed.

Lemma logout_ok (t : string) db : db_ok db → db_ok (logout t db).1.
Proof.
  intros Hok. unfold logout. run_route. simpl.
  destruct (List.find _ (users db)) as [user|] eqn:Hfind; [|done].
  apply find_Some_elem in Hfind as [Hin _]. simpl.
  apply update_tokens_ok; [done..|].
  apply Forall_filter_keep. by apply (stored_tokens_issued db).
Qed.

Lemma logoutAll_ok (c : Claims) db : db_ok db → db_ok (logoutAll c db).1.
Proof.
  intros Hok. unfold logoutAll. run_route. simpl.
  destruct (List.find _ (users db)) as [user|] eqn:Hfind; [|done].
  apply find_Some_elem in Hfind as [Hin _]. simpl.
  by apply update_tokens_ok.
Qed.

Lemma createBookmark_ok rt (body : gmap string JsValue) (c : Claims) db :
  db_ok db → db_ok (createBookmark rt body c db).1.
Proof.
  intros Hok. unfold createBookmark.
  destruct (new_Bookmark _ _) as [b|]; run_route; [|done].
  destruct (existsb _ (bookmarks db)) eqn:Hfresh; [done|]. simpl.
  destruct Hok as [Hid Hun Hem Htok Hbm]. split; simpl; [done..|].
  rewrite fmap_app. apply NoDup_app. split; [done|].
  split; [|apply NoDup_singleton].
  intros x Hx Hxb. apply list_elem_of_fmap in Hx as (v & -> & Hv).
  apply list_elem_of_singleton in Hxb.
  pose proof (existsb_false _ _ Hfresh v Hv) as Hne.
  by apply bool_decide_eq_false in Hne.
Qed.

Lemma deleteBookmark_ok (id : string) (c : Claims) db :
  db_ok db → db_ok (deleteBookmark id c db).1.
Proof.
  intros Hok. rewrite deleteBookmark_run.
  destruct (ObjectId_of_hex id) as [oid|]; [|done].
  destruct (remove_first _ (bookmarks db)) as [[b r]|] eqn:Hrm; [|done].
  apply remove_first_Some in Hrm as (l1 & l2 & Hl & -> & _ & _). simpl.
  destruct Hok as [Hid Hun Hem Htok Hbm]. split; simpl; [done..|].
  rewrite Hl in Hbm. eapply sublist_NoDup; [exact Hbm|].
  apply fmap_sublist, sublist_app; [done|]. by apply sublist_cons.
Qed.

(** Under the invariant a bookmark that was deleted is gone: no stored
    bookmark has its id, and no later list shows it. *)
Lemma deleteBookmark_gone (id : string) (c : Claims) db (m : string) :
  db_ok db → (deleteBookmark id c db).2 = Json 200 (Message m) →
  ∃ oid,
    ObjectId_of_hex id = Some oid ∧
    Forall (λ b, bookmark_id b ≠ oid) (bookmarks (deleteBookmark id c db).1).
Proof.
  intros [_ _ _ _ Hbm]. rewrite deleteBookmark_run.
  destruct (ObjectId_of_hex id) as [oid|]; [|done].
  destruct (remove_first _ (bookmarks db)) as [[b r]|] eqn:Hrm; [|done].
  apply remove_first_Some in Hrm as (l1 & l2 & Hl & -> & Hb & _). simpl.
  intros _. exists oid. split; [done|].
  apply deletable_filter in Hb as [Hid _].
  rewrite Hl, fmap_app, fmap_cons, Hid in Hbm.
  apply NoDup_app in Hbm as (_ & Hl1 & [Hl2 _]%NoDup_cons).
  apply Forall_app. split; apply Forall_forall; intros x Hx Hxid.
  - apply (Hl1 oid); [|apply list_elem_of_here].
    rewrite <- Hxid. by apply list_elem_of_fmap_2.
  - apply Hl2. rewrite <- Hxid. by apply list_elem_of_fmap_2.
Qed.

Lemma protected_ok env rt (a : option string)
    (handler : Claims → Db → Db * Reply) db :
  (∀ c, db_ok (handler c db).1) → db_ok db →
  db_ok (protected env rt a handler db).1.
Proof.
  intros Hh Hok. unfold protected.
  pose proof (authenticateUser_db_unchanged env rt a db) as Hdb.
  destruct (authenticateUser env rt a db) as [db' [c|r|e]];
    simpl in Hdb; subst db'; [apply Hh|done..].
Qed.

(** Every route keeps the invariant. *)
Lemma app_ok env rt (req : Request) db :
  db_ok db → db_ok (app env rt req db).1.
Proof.
  intros Hok. destruct req; simpl.
  - by apply signup_ok.
  - by apply login_ok.
  - by rewrite refresh_db_unchanged.
  - by apply logout_ok.
  - apply protected_ok; [|done]. intros c. by apply logoutAll_ok.
  - apply protected_ok; [|done]. intros c. by apply createBookmark_ok.
  - apply protected_ok; [|done]. intros c.
    by rewrite listBookmarks_store_order.
  - apply protected_ok; [|done]. intros c. by apply deleteBookmark_ok.
Qed.

Lemma emptyDb_ok : db_ok emptyDb.
Proof. split; simpl; constructor. Qed.

Lemma reachable_ok db : reachable db → db_ok db.
Proof.
  induction 1 as [|env rt req db _ IH]; [apply emptyDb_ok|].
  by apply app_ok.
Qed.

(** ** Sessions *)

Section Sessions.
Context `{!JwtLaws}.

Lemma find_unique {B} `{EqDecision B} (f : User → B) (us : list User) u :
  NoDup (f <$> us) → u ∈ us →
  List.find (λ v, bool_decide (f v = f u)) us = Some u.
Proof.
  intros Hnd Hu.
  destruct (List.find _ us) as [v|] eqn:Hfind.
  - apply find_Some_elem in Hfind as [Hv Hfv].
    apply bool_decide_eq_true in Hfv. f_equal.
    by apply (NoDup_fmap_eq f us).
  - apply list_elem_of_In in Hu.
    pose proof (find_none _ _ Hfind u Hu) as Hne. simpl in Hne.
    by rewrite bool_decide_eq_true_2 in Hne.
Qed.

(** A stored refresh token has one holder. *)
Lemma token_holder_unique db u v (t : string) :
  db_ok db → u ∈ users db → v ∈ users db →
  t ∈ refreshTokens u → t ∈ refreshTokens v → u = v.
Proof.
  intros Hok Hu Hv Htu Htv.
  pose proof (stored_tokens_issued db u Hok Hu) as Hiu.
  pose proof (stored_tokens_issued db v Hok Hv) as Hiv.
  rewrite Forall_forall in Hiu, Hiv.
  destruct (Hiu t Htu) as (k1 & t1 & Hk1 & E1).
  destruct (Hiv t Htv) as (k2 & t2 & Hk2 & E2).
  rewrite E1 in E2. apply jwt_sign_inj in E2 as (Hid & _); [|done..].
  destruct Hok as [Hids _ _ _ _].
  by apply (NoDup_fmap_eq user_id (users db)).
Qed.

Lemma stored_token_nonempty db u (t : string) :
  db_ok db → u ∈ users db → t ∈ refreshTokens u → t ≠ "".
Proof.
  intros Hok Hu Ht.
  pose proof (stored_tokens_issued db u Hok Hu) as Hiu.
  rewrite Forall_forall in Hiu. destruct (Hiu t Ht) as (k & t0 & Hk & ->).
  by apply jwt_sign_nonempty.
Qed.

(** The lookup [{ refreshTokens: t }] finds the holder. *)
Lemma find_holder db u (t : string) :
  db_ok db → u ∈ users db → t ∈ refreshTokens u →
  List.find (holds_token t) (users db) = Some u.
Proof.
  intros Hok Hu Ht.
  destruct (List.find _ (users db)) as [v|] eqn:Hfind.
  - apply find_Some_elem in Hfind as [Hv Htv].
    apply bool_decide_eq_true in Htv. f_equal.
    by apply (token_holder_unique db v u t).
  - apply list_elem_of_In in Hu.
    pose proof (find_none _ _ Hfind u Hu) as Hne.
    unfold holds_token in Hne. by rewrite bool_decide_eq_true_2 in Hne.
Qed.

(** What [user.save()] leaves in the collection. *)
Lemma update_user_stored db u (ts : list string) :
  db_ok db → u ∈ users db →
  with_refreshTokens u ts ∈ update_user (with_refreshTokens u ts) (users db)
  ∧ ∀ v, v ∈ users db → v ≠ u →
         v ∈ update_user (with_refreshTokens u ts) (users db).
Proof.
  intros Hok Hu. unfold update_user. split.
  - apply list_elem_of_fmap. exists u. split; [|done].
    by rewrite decide_True.
  - intros v Hv Hvu. apply list_elem_of_fmap. exists v. split; [|done].
    rewrite decide_False; [done|]. simpl. intros Hid. apply Hvu.
    destruct Hok as [Hids _ _ _ _].
    by apply (NoDup_fmap_eq user_id (users db)).
Qed.

(** After [user.refreshTokens = ts] is saved, a token of the old
    collection that is not in [ts] is in no collection. *)
Lemma update_user_unknown db u (ts : list string) (t : string) :
  db_ok db → u ∈ users db → t ∈ refreshTokens u → t ∉ ts →
  unknown_token t
    (mkDb (update_user (with_refreshTokens u ts) (users db))
       (bookmarks db)).
Proof.
  intros Hok Hu Ht Hts. unfold unknown_token, update_user. simpl.
  apply Forall_fmap, Forall_forall. intros v Hv. simpl.
  case_decide as Hid; [done|]. intros Htv. apply Hid. simpl.
  by rewrite (token_holder_unique db v u t).
Qed.

(** An access token the server signed is refused by the gate from the
    second it expires. *)
Lemma authenticateUser_expired env rt u (k : string) (t0 : N) db :
  JWT_SECRET env = Some k → k ≠ "" → (t0 + expiresIn_15m ≤ now rt)%N →
  authenticateUser env rt
    (Some (String.append "Bearer "
             (jwt_sign (user_id u) (Some (email u)) k t0 expiresIn_15m))) db
  = (db, Sent (Json 403 (Message "Invalid or expired token"))).
Proof.
  intros Hk Hkne Hexp. unfold authenticateUser.
  assert (Some (String.append "Bearer "
                  (jwt_sign (user_id u) (Some (email u)) k t0 expiresIn_15m))
            ≫= (λ a, split " " a !! 1)
          = Some (jwt_sign (user_id u) (Some (email u)) k t0 expiresIn_15m))
    as -> by by apply bearer_token, jwt_sign_no_space.
  rewrite truthy_Some by by apply jwt_sign_nonempty. run_route. simpl.
  by rewrite jwt_verify_expired.
Qed.

(** C3 (as amended): when a stored user holds the token, logout
    answers 200 and saves that user with every entry equal to the token
    removed, duplicates included; the entries that differ from the token
    stay, in their order, and so stay valid; every other user and every
    bookmark is as before. *)
Theorem logout_revokes_token (t : string) db u :
  db_ok db → u ∈ users db → t ∈ refreshTokens u →
  ∃ ts',
    ts' = List.filter (λ token, negb (String.eqb token t))
            (refreshTokens u) ∧
    logout t db
    = (mkDb (update_user (with_refreshTokens u ts') (users db))
         (bookmarks db),
       Json 200 (Message "Logged out successfully")) ∧
    with_refreshTokens u ts' ∈ users (logout t db).1 ∧
    (t ∉ ts') ∧
    (∀ t', t' ≠ t → (t' ∈ ts' ↔ t' ∈ refreshTokens u)) ∧
    (∀ v, v ∈ users db → v ≠ u → v ∈ users (logout t db).1).
Proof.
  intros Hok Hu Ht. eexists. split; [reflexivity|].
  assert (logout t db
          = (mkDb (update_user (with_refreshTokens u
                     (List.filter (λ token, negb (String.eqb token t))
                        (refreshTokens u))) (users db)) (bookmarks db),
             Json 200 (Message "Logged out successfully"))) as Hrun.
  { unfold logout. run_route. simpl.
    by rewrite (find_holder db u t Hok Hu Ht). }
  split; [done|]. rewrite Hrun. simpl.
  destruct (update_user_stored db u
              (List.filter (λ token, negb (String.eqb token t))
                 (refreshTokens u)) Hok Hu) as [Hsaved Hothers].
  split; [done|]. split; [|split; [|done]].
  - rewrite list_elem_of_In, filter_In, String.eqb_refl.
    by intros [_ ?].
  - intros t' Hne. rewrite !list_elem_of_In, filter_In.
    destruct (String.eqb_spec t' t); [done|]. simpl. tauto.
Qed.

(** C4: when the gate accepted a logout-all request as [c] and [c]'s
    user exists, the route answers 200 and saves that user with an empty
    refresh-token collection, the rest of the database as before; a
    refresh that follows, at any time and with any token the collection
    held, is answered 403 "Invalid refresh token". *)
Theorem logoutAll_revokes_all env rt (a : option string) (c : Claims)
    db u :
  db_ok db → authenticateUser env rt a db = (db, Value c) →
  u ∈ users db → user_id u = tok_userId c →
  ∃ db',
    app env rt (PostLogoutAll a) db
    = (db', Json 200 (Message "Logged out from all devices")) ∧
    db' = mkDb (update_user (with_refreshTokens u []) (users db))
            (bookmarks db) ∧
    with_refreshTokens u [] ∈ users db' ∧
    (∀ v, v ∈ users db → v ≠ u → v ∈ users db') ∧
    (∀ (t : string) env' rt',
       t ∈ refreshTokens u →
       refresh env' rt' (Some t) db'
       = (db', Json 403 (Message "Invalid refresh token"))).
Proof.
  intros Hok Hgate Hu Hid. eexists. split; [|split; [reflexivity|]].
  - simpl. rewrite (protected_accepted _ _ _ _ _ _ Hgate).
    unfold logoutAll. run_route. simpl. rewrite <- Hid.
    rewrite (find_unique user_id (users db) u); [done| |done].
    by destruct Hok.
  - destruct (update_user_stored db u [] Hok Hu) as [Hsaved Hothers].
    split; [done|]. split; [done|].
    intros t env' rt' Ht.
    pose proof (stored_token_nonempty db u t Hok Hu Ht) as Hne.
    pose proof (find_holds_token_None t _
                  (update_user_unknown db u [] t Hok Hu Ht
                     (not_elem_of_nil t))) as Hfind.
    simpl in Hfind. rewrite refresh_run, truthy_Some by done. simpl.
    by rewrite Hfind.
Qed.

(** C8: when both secrets are configured, a login whose email is that
    of a stored user and whose password matches that user's hash
    answers 200 with an access token and a refresh token; the user is
    saved with the refresh token appended to the collection before the
    answer, and the gate accepts the access token, as the user's id and
    email, on any request made before it expires. *)
Theorem login_issues_session env rt (e p : string) db u
    (k k' : string) :
  db_ok db →
  JWT_SECRET env = Some k → k ≠ "" →
  REFRESH_SECRET env = Some k' → k' ≠ "" →
  u ∈ users db → email u = e → bcrypt_compare p (password u) = true →
  ∃ db' (accessToken refreshToken : string),
    login env rt e p db
    = (db', Json 200
              (Session "Login successful" accessToken refreshToken)) ∧
    refreshToken = jwt_sign (user_id u) None k' (now rt) expiresIn_7d ∧
    with_refreshTokens u (refreshTokens u ++ [refreshToken]) ∈ users db' ∧
    (∀ rt', (now rt' < now rt + expiresIn_15m)%N →
       authenticateUser env rt'
         (Some (String.append "Bearer " accessToken)) db'
       = (db', Value (mkClaims (user_id u) (Some (email u)) (now rt)
                        (now rt + expiresIn_15m)%N))).
Proof.
  intros Hok Hk Hkne Hk' Hk'ne Hu He Hp. eexists _, _, _.
  split; [|split; [reflexivity|split]].
  - unfold login. run_route. simpl. rewrite <- He.
    rewrite (find_unique email (users db) u); [| |done].
    2:{ by destruct Hok. }
    rewrite Hp. simpl. rewrite generateAccessToken_run.
    rewrite Hk, truthy_Some by done.
    rewrite generateRefreshToken_run, Hk', truthy_Some by done.
    simpl. reflexivity.
  - simpl. by destruct (update_user_stored db u
      (refreshTokens u ++ [jwt_sign (user_id u) None k' (now rt)
                             expiresIn_7d]) Hok Hu).
  - intros rt' Hlt. unfold authenticateUser.
    assert (Some (String.append "Bearer "
                    (jwt_sign (user_id u) (Some (email u)) k (now rt)
                       expiresIn_15m))
              ≫= (λ a, split " " a !! 1)
            = Some (jwt_sign (user_id u) (Some (email u)) k (now rt)
                      expiresIn_15m)) as ->.
    { by apply bearer_token, jwt_sign_no_space. }
    rewrite truthy_Some by by apply jwt_sign_nonempty. run_route. simpl.
    rewrite Hk. by rewrite jwt_verify_sign.
Qed.
End Sessions.
End Properties.

(** ** The properties on the run *)

Lemma db_bookmarks_reachable : @reachable plain_jwt plain_bcrypt db_bookmarks.
Proof.
  unfold db_bookmarks, db_sessions, db_same_second, db_two, db_ann, serve.
  repeat apply reachable_step. apply reachable_empty.
Qed.

Lemma db_sessions_reachable : @reachable plain_jwt plain_bcrypt db_sessions.
Proof.
  unfold db_sessions, db_same_second, db_two, db_ann, serve.
  repeat apply reachable_step. apply reachable_empty.
Qed.

Lemma db_sessions_eq : db_sessions = mkDb [ann; bob] [].
Proof. by_run. Qed.

(** C1, the claim as stated: the empty string is a token string that no
    collection holds, and the refresh route answers it 401 "No refresh
    token provided", not 403 "Invalid refresh token". *)
Lemma refresh_empty_token_counterexample :
  unknown_token "" db_sessions ∧
  serve env0 (at_time 1600 "-") (PostRefresh (Some "")) db_sessions
  = (db_sessions,
     Json 401 (Message "Unauthorized - No refresh token provided")) ∧
  serve env0 (at_time 1600 "-") (PostRefresh (Some "")) db_sessions
  ≠ (db_sessions, Json 403 (Message "Invalid refresh token")).
Proof.
  split; [unfold unknown_token; decide_by_run|]. split; by_run.
Qed.

(** A refresh token signed for Ann with the refresh secret, unexpired at
    time 1600 and never stored, is refused. *)
Lemma refresh_unknown_token_witness :
  refresh_token_of ann_id 1500 ≠ "" ∧
  unknown_token (refresh_token_of ann_id 1500) db_sessions ∧
  plain_verify (refresh_token_of ann_id 1500) (Some "refresh-secret") 1600
  = Some (mkClaims ann_id None 1500 (1500 + expiresIn_7d)%N) ∧
  serve env0 (at_time 1600 "-")
    (PostRefresh (Some (refresh_token_of ann_id 1500))) db_sessions
  = (db_sessions, Json 403 (Message "Invalid refresh token")).
Proof.
  assert (refresh_token_of ann_id 1500 ≠ "") as Hne by by_run.
  assert (unknown_token (refresh_token_of ann_id 1500) db_sessions) as Hun
    by (unfold unknown_token; decide_by_run).
  split; [exact Hne|]. split; [exact Hun|]. split; [by_run|].
  exact (@refresh_unknown_token plain_jwt env0 (at_time 1600 "-")
           (refresh_token_of ann_id 1500) db_sessions Hne Hun).
Defined.

(** Carol signs up with Ann's password. *)
Lemma signup_rejects_used_password_witness :
  ∃ msg,
    serve env0 (at_time 3000 carol_id)
      (PostSignup (Some "carol") (Some "carol@example.org")
         (Some "correct horse")) db_sessions
    = (db_sessions, Json 400 (Message msg)).
Proof.
  apply (@signup_rejects_used_password plain_jwt plain_bcrypt env0
           (at_time 3000 carol_id) (Some "carol") (Some "carol@example.org")
           "correct horse" db_sessions).
  exists ann. split; [rewrite db_sessions_eq; apply list_elem_of_here|].
  by_run.
Defined.

(** A refresh with a stored, unexpired token. *)
Lemma refresh_success_only_access_token_witness :
  db_sessions = db_sessions ∧
  ∃ user,
    List.find (holds_token (refresh_token_of ann_id 2000)) (users db_sessions)
    = Some user ∧
    AccessToken (access_token_of ann_id "ann@example.org" 3000)
    = AccessToken
        (plain_sign (user_id user) (Some (email user)) "access-secret" 3000
           expiresIn_15m).
Proof.
  apply (@refresh_success_only_access_token plain_jwt env0 (at_time 3000 "-")
           (Some (refresh_token_of ann_id 2000)) db_sessions db_sessions
           (AccessToken (access_token_of ann_id "ann@example.org" 3000))).
  by_run.
Defined.

(** C3, the claim as stated: Ann's collection holds the token of second
    1000 twice (her signup and a login within the same second sign the same
    payload); logout with that token removes both entries, where removing
    exactly one would leave a copy behind. *)
Lemma logout_duplicate_counterexample :
  @reachable plain_jwt plain_bcrypt db_sessions ∧
  users db_sessions = [ann; bob] ∧
  refreshTokens ann
  = [refresh_token_of ann_id 1000; refresh_token_of ann_id 1000;
     refresh_token_of ann_id 2000] ∧
  serve env0 (at_time 2500 "-") (PostLogout (refresh_token_of ann_id 1000))
    db_sessions
  = (mkDb [with_refreshTokens ann [refresh_token_of ann_id 2000]; bob] [],
     Json 200 (Message "Logged out successfully")) ∧
  ¬ (∃ l1 l2,
       refreshTokens ann = l1 ++ refresh_token_of ann_id 1000 :: l2 ∧
       [refresh_token_of ann_id 2000] = l1 ++ l2).
Proof.
  split; [apply db_sessions_reachable|]. split; [by_run|].
  split; [reflexivity|]. split; [by_run|].
  intros (l1 & l2 & H1 & H2).
  apply (f_equal length) in H1, H2. rewrite length_app in H1, H2.
  simpl in H1, H2. lia.
Qed.

(** Ann logs out with the token of second 1000: the token of second 2000
    stays, Bob is untouched. *)
Lemma logout_revokes_token_witness :
  with_refreshTokens ann [refresh_token_of ann_id 2000]
    ∈ users (logout (refresh_token_of ann_id 1000) db_sessions).1 ∧
  bob ∈ users (logout (refresh_token_of ann_id 1000) db_sessions).1.
Proof.
  destruct (@logout_revokes_token plain_jwt plain_jwt_laws
              (refresh_token_of ann_id 1000) db_sessions ann)
    as (ts' & -> & _ & Hann & _ & _ & Hothers).
  - apply (@reachable_ok plain_jwt plain_bcrypt), db_sessions_reachable.
  - rewrite db_sessions_eq. apply list_elem_of_here.
  - apply list_elem_of_here.
  - split; [exact Hann|]. apply Hothers; [|discriminate].
    rewrite db_sessions_eq. apply list_elem_of_further, list_elem_of_here.
Defined.

(** Ann logs out everywhere at time 2100; her token of second 2000, which
    a refresh accepted just before, is refused afterwards. *)
Lemma logoutAll_revokes_all_witness :
  (serve env0 (at_time 2100 "-")
     (PostRefresh (Some (refresh_token_of ann_id 2000))) db_sessions).2
  = Json 200 (AccessToken (access_token_of ann_id "ann@example.org" 2100)) ∧
  ∃ db',
    serve env0 (at_time 2100 "-")
      (PostLogoutAll (bearer (access_token_of ann_id "ann@example.org" 2000)))
      db_sessions
    = (db', Json 200 (Message "Logged out from all devices")) ∧
    users db' = [with_refreshTokens ann []; bob] ∧
    serve env0 (at_time 2100 "-")
      (PostRefresh (Some (refresh_token_of ann_id 2000))) db'
    = (db', Json 403 (Message "Invalid refresh token")).
Proof.
  split; [by_run|].
  destruct (@logoutAll_revokes_all plain_jwt plain_bcrypt plain_jwt_laws
              env0 (at_time 2100 "-")
              (bearer (access_token_of ann_id "ann@example.org" 2000))
              (ann_claims 2000) db_sessions ann)
    as (db' & Hrun & Hdb' & _ & _ & Hrefresh).
  - apply (@reachable_ok plain_jwt plain_bcrypt), db_sessions_reachable.
  - by_run.
  - rewrite db_sessions_eq. apply list_elem_of_here.
  - reflexivity.
  - exists db'. split; [exact Hrun|]. split.
    + rewrite Hdb', db_sessions_eq. by_run.
    + apply Hrefresh. apply list_elem_of_further, list_elem_of_further,
        list_elem_of_here.
Defined.

(** Ann logs in at time 2000; the gate accepts her access token at time
    2899, one second before it expires. *)
Lemma login_issues_session_witness :
  ∃ db' accessToken refreshToken,
    serve env0 (at_time 2000 "-")
      (PostLogin "ann@example.org" "correct horse") db_same_second
    = (db', Json 200 (Session "Login successful" accessToken refreshToken)) ∧
    refreshToken = refresh_token_of ann_id 2000 ∧
    ann ∈ users db' ∧
    @authenticateUser plain_jwt env0 (at_time 2899 "-") (bearer accessToken)
      db'
    = (db', Value (ann_claims 2000)).
Proof.
  destruct (@login_issues_session plain_jwt plain_bcrypt plain_jwt_laws
              env0 (at_time 2000 "-") "ann@example.org" "correct horse"
              db_same_second
              (with_refreshTokens ann
                 [refresh_token_of ann_id 1000; refresh_token_of ann_id 1000])
              "access-secret" "refresh-secret")
    as (db' & accessToken & refreshToken & Hrun & -> & Hin & Hgate).
  - apply (@reachable_ok plain_jwt plain_bcrypt).
    unfold db_same_second, db_two, db_ann, serve.
    repeat apply reachable_step. apply reachable_empty.
  - reflexivity.
  - discriminate.
  - reflexivity.
  - discriminate.
  - decide_by_run.
  - reflexivity.
  - by_run.
  - exists db', accessToken, (refresh_token_of ann_id 2000).
    split; [exact Hrun|]. split; [reflexivity|]. split; [exact Hin|].
    apply (Hgate (at_time 2899 "-")). by_run.
Defined.

(** C6, the claim as stated: no stored bookmark has the id
    "not-an-objectid", and Ann's request to delete it is answered 500,
    not 404 "Bookmark not found or unauthorized". *)
Lemma deleteBookmark_malformed_id_counterexample :
  ¬ (∃ b, b ∈ bookmarks db_bookmarks ∧
          deletable "not-an-objectid" (ann_claims 2000) b) ∧
  @authenticateUser plain_jwt env0 (at_time 2300 "-") ann_bearer db_bookmarks
  = (db_bookmarks, Value (ann_claims 2000)) ∧
  serve env0 (at_time 2300 "-") (DeleteBookmark ann_bearer "not-an-objectid")
    db_bookmarks
  = (db_bookmarks, Json 500 (Failure CastError)) ∧
  serve env0 (at_time 2300 "-") (DeleteBookmark ann_bearer "not-an-objectid")
    db_bookmarks
  ≠ (db_bookmarks, Json 404 (Message "Bookmark not found or unauthorized")).
Proof.
  split; [|split; [by_run|split; by_run]].
  rewrite db_bookmarks_eq. unfold deletable. simpl.
  intros (b & Hb & Hid & Hown).
  apply elem_of_cons in Hb as [->|Hb]; [discriminate|].
  apply elem_of_cons in Hb as [->|Hb]; [discriminate|].
  by apply elem_of_nil in Hb.
Qed.

(** At time 2300 Ann asks to delete Bob's bookmark, and then her own under
    the upper-case spelling of its id. *)
Lemma deleteBookmark_owner_only_witness :
  ObjectId_of_hex "64A7F30000000000000000B1" = Some rocq_id ∧
  serve env0 (at_time 2300 "-") (DeleteBookmark ann_bearer mongoose_id)
    db_bookmarks
  = (db_bookmarks, Json 404 (Message "Bookmark not found or unauthorized")) ∧
  ∃ l1 b l2,
    bookmarks db_bookmarks = l1 ++ b :: l2 ∧
    deletable rocq_id (ann_claims 2000) b ∧
    Forall (λ x, ¬ deletable rocq_id (ann_claims 2000) x) l1 ∧
    serve env0 (at_time 2300 "-")
      (DeleteBookmark ann_bearer "64A7F30000000000000000B1") db_bookmarks
    = (mkDb (users db_bookmarks) (l1 ++ l2),
       Json 200 (Message "Bookmark deleted successfully")).
Proof.
  assert (@authenticateUser plain_jwt env0 (at_time 2300 "-") ann_bearer
            db_bookmarks
          = (db_bookmarks, Value (ann_claims 2000))) as Hgate by by_run.
  assert (ObjectId_of_hex "64A7F30000000000000000B1" = Some rocq_id)
    as Hupper by by_run.
  assert (ObjectId_of_hex mongoose_id = Some mongoose_id) as Hlower
    by by_run.
  split; [exact Hupper|]. split.
  - apply (proj2 (@deleteBookmark_owner_only plain_jwt plain_bcrypt env0
                    (at_time 2300 "-") _ mongoose_id (ann_claims 2000)
                    db_bookmarks Hgate) mongoose_id Hlower).
    rewrite db_bookmarks_eq. unfold deletable. simpl.
    intros (b & Hb & Hid & Hown).
    apply elem_of_cons in Hb as [->|Hb]; [discriminate|].
    apply elem_of_cons in Hb as [->|Hb]; [discriminate|].
    by apply elem_of_nil in Hb.
  - apply (proj2 (@deleteBookmark_owner_only plain_jwt plain_bcrypt env0
                    (at_time 2300 "-") _ "64A7F30000000000000000B1"
                    (ann_claims 2000) db_bookmarks Hgate) rocq_id Hupper).
    rewrite db_bookmarks_eq. eexists. split; [apply list_elem_of_here|].
    by split.
Defined.

(** Three requests at the gate: no header, Ann's access token one second
    before it expires, and the same token at the second it expires. *)
Lemma authenticateUser_contract_witness :
  (@authenticateUser plain_jwt env0 (at_time 2899 "-") None db_sessions).2
  = Sent (Json 401 (Message "Unauthorized - No token provided")) ∧
  (@authenticateUser plain_jwt env0 (at_time 2899 "-")
     (bearer (access_token_of ann_id "ann@example.org" 2000)) db_sessions).2
  = Value (ann_claims 2000) ∧
  (@authenticateUser plain_jwt env0 (at_time 2900 "-")
     (bearer (access_token_of ann_id "ann@example.org" 2000)) db_sessions).2
  = Sent (Json 403 (Message "Invalid or expired token")).
Proof.
  split; [|split].
  - by apply (@authenticateUser_contract plain_jwt env0 (at_time 2899 "-")
                None db_sessions).
  - destruct (@authenticateUser_contract plain_jwt env0 (at_time 2899 "-")
                (bearer (access_token_of ann_id "ann@example.org" 2000))
                db_sessions) as (_ & _ & Hbearer & _).
    rewrite (Hbearer _ eq_refl) by by_run. by_run.
  - destruct (@authenticateUser_contract plain_jwt env0 (at_time 2900 "-")
                (bearer (access_token_of ann_id "ann@example.org" 2000))
                db_sessions) as (_ & _ & Hbearer & _).
    rewrite (Hbearer _ eq_refl) by by_run. by_run.
Defined.


(** ** The order of the list route *)

(** C9 on the run: Ann stored "Rocq" at time 2100 and "stdpp" at time 2600.
    The list route answers with her bookmarks, and only hers, but with the
    older one first. *)
Lemma listBookmarks_oldest_first :
  serve env0 (at_time 2700 "-")
    (GetBookmarks (bearer (access_token_of ann_id "ann@example.org" 2000)))
    db_reading_list
  = (db_reading_list,
     Json 200
       (BookmarkDocs
          [mkBookmark rocq_id (Some "Rocq") (Some "https://rocq-prover.org")
             None ["proofs"] None ann_id;
           mkBookmark stdpp_id (Some "stdpp") None None [] None ann_id])).
Proof. by_run. Qed.

(** * Further properties of the routes *)

Section Routes.
Context `{Jwt} `{Bcrypt}.
Implicit Types (env : ProcessEnv) (rt : Runtime) (db : Db) (u : User).

(** ** The routes, case by case *)

(** The token the gate reads: the second word of the header. *)
Lemma authenticateUser_run env rt (a : option string) db :
  authenticateUser env rt a db =
    (db,
     match a ≫= (λ a, split " " a !! 1) with
     | Some tok =>
         if String.eqb tok ""
         then Sent (Json 401 (Message "Unauthorized - No token provided"))
         else match jwt_verify tok (JWT_SECRET env) (now rt) with
              | Some decoded => Value decoded
              | None => Sent (Json 403 (Message "Invalid or expired token"))
              end
     | None => Sent (Json 401 (Message "Unauthorized - No token provided"))
     end).
Proof.
  unfold authenticateUser. destruct (a ≫= _) as [tok|]; simpl; [|done].
  destruct (String.eqb tok ""); simpl; [done|]. run_route.
  by destruct (jwt_verify _ _ _).
Qed.

Lemma protected_run env rt (a : option string)
    (handler : Claims → Db → Db * Reply) db :
  protected env rt a handler db =
    match (authenticateUser env rt a db).2 with
    | Value c => handler c db
    | Sent r => (db, r)
    | Thrown e => (db, Json 500 (Failure e))
    end.
Proof.
  unfold protected. rewrite authenticateUser_run. simpl.
  by destruct (match a ≫= _ with Some _ => _ | None => _ end).
Qed.

Lemma login_run env rt (e p : string) db :
  login env rt e p db =
    match List.find (λ u, bool_decide (email u = e)) (users db) with
    | None => (db, Json 400 (Message "User with this email does not exists"))
    | Some user =>
        if bcrypt_compare p (password user)
        then
          if truthy (JWT_SECRET env)
          then
            if truthy (REFRESH_SECRET env)
            then
              let refreshToken :=
                jwt_sign (user_id user) None
                  (default "" (REFRESH_SECRET env)) (now rt) expiresIn_7d in
              (mkDb (update_user
                       (with_refreshTokens user
                          (refreshTokens user ++ [refreshToken]))
                       (users db)) (bookmarks db),
               Json 200
                 (Session "Login successful"
                    (jwt_sign (user_id user) (Some (email user))
                       (default "" (JWT_SECRET env)) (now rt) expiresIn_15m)
                    refreshToken))
            else (db, Json 500
                        (Failure
                           (JsError "Missing REFRESH_SECRET in .env file")))
          else (db, Json 500
                      (Failure (JsError "Missing JWT_SECRET in .env file")))
        else (db, Json 400 (Message "Invalid password"))
    end.
Proof.
  unfold login. run_route. simpl.
  destruct (List.find _ _) as [user|]; [|done].
  destruct (bcrypt_compare p (password user)); [|done]. simpl.
  rewrite generateAccessToken_run.
  destruct (truthy (JWT_SECRET env)); [|done].
  rewrite generateRefreshToken_run.
  by destruct (truthy (REFRESH_SECRET env)).
Qed.

Lemma logout_run (t : string) db :
  logout t db =
    match List.find (holds_token t) (users db) with
    | None => (db, Json 403 (Message "Invalid refresh token"))
    | Some user =>
        (mkDb (update_user
                 (with_refreshTokens user
                    (List.filter (λ token, negb (String.eqb token t))
                       (refreshTokens user)))
                 (users db)) (bookmarks db),
         Json 200 (Message "Logged out successfully"))
    end.
Proof.
  unfold logout. run_route. simpl. by destruct (List.find _ _).
Qed.

Lemma logoutAll_run (c : Claims) db :
  logoutAll c db =
    match List.find (λ u, bool_decide (user_id u = tok_userId c)) (users db)
    with
    | None => (db, Json 403 (Message "User not found"))
    | Some user =>
        (mkDb (update_user (with_refreshTokens user []) (users db))
           (bookmarks db),
         Json 200 (Message "Logged out from all devices"))
    end.
Proof.
  unfold logoutAll. run_route. simpl. by destruct (List.find _ _).
Qed.

Lemma createBookmark_run rt (body : gmap string JsValue) (c : Claims) db :
  createBookmark rt body c db =
    match new_Bookmark (newObjectId rt)
            (<["userId" := JId (tok_userId c)]> body) with
    | None => (db, Json 500 (Failure ValidationError))
    | Some b =>
        if existsb (λ x, bool_decide (bookmark_id x = bookmark_id b))
             (bookmarks db)
        then (db, Json 500 (Failure DuplicateKey))
        else (mkDb (users db) (bookmarks db ++ [b]), Json 201 (BookmarkDoc b))
    end.
Proof.
  unfold createBookmark. destruct (new_Bookmark _ _); run_route; [|done].
  by destruct (existsb _ _).
Qed.

(** The signup route once the fields are there: the lookup of the name
    and the email, the password scan, the insert and the two tokens. *)
Lemma signup_run env rt (un mail pw : string) db :
  un ≠ "" → mail ≠ "" → pw ≠ "" →
  signup env rt (Some un) (Some mail) (Some pw) db =
    let newUser :=
      mkUser (newObjectId rt) un mail (bcrypt_hash pw 10 (genSalt rt)) [] in
    let rest :=
      if existsb (λ user, bcrypt_compare pw (password user)) (users db)
      then (db, Json 400 (Message "This password has already been used"))
      else if existsb (User_conflict newUser) (users db)
      then (db, Json 500 (Failure DuplicateKey))
      else
        let db1 := mkDb (users db ++ [newUser]) (bookmarks db) in
        if truthy (JWT_SECRET env)
        then
          if truthy (REFRESH_SECRET env)
          then
            let refreshToken :=
              jwt_sign (newObjectId rt) None
                (default "" (REFRESH_SECRET env)) (now rt) expiresIn_7d in
            (mkDb (update_user (with_refreshTokens newUser [refreshToken])
                     (users db ++ [newUser])) (bookmarks db),
             Json 201
               (Session "User registered"
                  (jwt_sign (newObjectId rt) (Some mail)
                     (default "" (JWT_SECRET env)) (now rt) expiresIn_15m)
                  refreshToken))
          else (db1, Json 500
                       (Failure
                          (JsError "Missing REFRESH_SECRET in .env file")))
        else (db1, Json 500
                     (Failure (JsError "Missing JWT_SECRET in .env file"))) in
    match List.find (λ u, bool_decide (username u = un)
                          || bool_decide (email u = mail)) (users db) with
    | Some existing =>
        if bool_decide (username existing = un)
        then (db, Json 400 (Message "Username is already taken"))
        else if bool_decide (email existing = mail)
        then (db, Json 400 (Message "Email is already in use"))
        else rest
    | None => rest
    end.
Proof.
  intros Hun Hmail Hpw. unfold signup.
  rewrite !truthy_Some by done. run_route. simpl.
  destruct (List.find _ (users db)) as [existing|];
    [destruct (bool_decide (username existing = _)); [done|];
     destruct (bool_decide (email existing = _)); [done|] |];
    simpl; rewrite password_scan_run;
    (destruct (existsb _ (users db)); [done|]);
    (destruct (existsb (User_conflict _) (users db)); [done|]);
    simpl; rewrite generateAccessToken_run;
    (destruct (truthy (JWT_SECRET env)); [|done]);
    rewrite generateRefreshToken_run;
    by destruct (truthy (REFRESH_SECRET env)).
Qed.

(** The insert of a user whose id is new, followed by the save of the
    same user with a token: the collection with that user at its end. *)
Lemma update_appended (us : list User) (new : User) (ts : list string) :
  Forall (λ v, user_id v ≠ user_id new) us →
  update_user (with_refreshTokens new ts) (us ++ [new])
  = us ++ [with_refreshTokens new ts].
Proof.
  intros Hfresh. unfold update_user. rewrite fmap_app. simpl.
  rewrite decide_True by done. f_equal.
  induction Hfresh as [|v us Hv _ IH]; [done|].
  rewrite fmap_cons, IH. simpl. by rewrite decide_False.
Qed.

(** ** Signup *)

(** No stored user has the name, the email or the id of the signup. *)
Lemma find_taken_None (un mail : string) (us : list User) :
  Forall (λ v, username v ≠ un ∧ email v ≠ mail) us →
  List.find (λ u, bool_decide (username u = un)
                  || bool_decide (email u = mail)) us = None.
Proof.
  induction 1 as [|v us [Hn He] _ IH]; [done|]. simpl.
  by rewrite !bool_decide_eq_false_2.
Qed.

Lemma existsb_Forall_false {A} (f : A → bool) (l : list A) :
  Forall (λ x, f x = false) l → existsb f l = false.
Proof. induction 1 as [|x l Hx _ IH]; [done|]. simpl. by rewrite Hx. Qed.

Lemma no_conflict (new : User) (us : list User) :
  Forall (λ v, username v ≠ username new ∧ email v ≠ email new) us →
  Forall (λ v, user_id v ≠ user_id new) us →
  existsb (User_conflict new) us = false.
Proof.
  induction 1 as [|v us [Hn He] _ IH]; [done|].
  intros [Hi Hus]%Forall_cons. simpl. unfold User_conflict at 1.
  rewrite !bool_decide_eq_false_2 by done. by apply IH.
Qed.

(** A signup whose username or email some stored user has is refused with
    400 and one of the two messages; nothing is written, whatever the
    other fields. *)
Theorem signup_rejects_taken_name env rt (un mail pw : string) db u :
  un ≠ "" → mail ≠ "" → pw ≠ "" →
  u ∈ users db → username u = un ∨ email u = mail →
  ∃ m,
    signup env rt (Some un) (Some mail) (Some pw) db
    = (db, Json 400 (Message m)) ∧
    (m = "Username is already taken" ∨ m = "Email is already in use").
Proof.
  intros Hun Hmail Hpw Hu Htaken. rewrite signup_run by done. simpl.
  destruct (List.find _ (users db)) as [existing|] eqn:Hfind.
  - apply find_Some_elem in Hfind as [_ Hex].
    apply orb_true_iff in Hex.
    destruct (bool_decide (username existing = un)) eqn:E1;
      [by eexists; split; [|left]|].
    destruct (bool_decide (email existing = mail)) eqn:E2;
      [by eexists; split; [|right]|].
    by destruct Hex.
  - apply list_elem_of_In in Hu.
    pose proof (find_none _ _ Hfind u Hu) as Hno. simpl in Hno.
    apply orb_false_iff in Hno as [H1 H2].
    apply bool_decide_eq_false in H1, H2. by destruct Htaken.
Qed.

Lemma signup_success_run env rt (un mail pw k k' : string) db :
  un ≠ "" → mail ≠ "" → pw ≠ "" →
  Forall (λ v, username v ≠ un ∧ email v ≠ mail) (users db) →
  Forall (λ v, user_id v ≠ newObjectId rt) (users db) →
  Forall (λ v, bcrypt_compare pw (password v) = false) (users db) →
  JWT_SECRET env = Some k → k ≠ "" →
  REFRESH_SECRET env = Some k' → k' ≠ "" →
  signup env rt (Some un) (Some mail) (Some pw) db
  = (mkDb (users db ++
             [mkUser (newObjectId rt) un mail
                (bcrypt_hash pw 10 (genSalt rt))
                [jwt_sign (newObjectId rt) None k' (now rt) expiresIn_7d]])
       (bookmarks db),
     Json 201
       (Session "User registered"
          (jwt_sign (newObjectId rt) (Some mail) k (now rt) expiresIn_15m)
          (jwt_sign (newObjectId rt) None k' (now rt) expiresIn_7d))).
Proof.
  intros Hun Hmail Hpw Hfree Hid Hscan Hk Hkne Hk' Hk'ne.
  rewrite signup_run by done. simpl.
  rewrite find_taken_None, (existsb_Forall_false _ _ Hscan) by done.
  rewrite no_conflict by done.
  rewrite Hk, Hk', !truthy_Some by done. simpl.
  by rewrite (update_appended (users db)
                (mkUser (newObjectId rt) un mail
                   (bcrypt_hash pw 10 (genSalt rt)) [])).
Qed.

Section Registration.
Context `{!JwtLaws}.

(** A signup that passes every check opens a session. With all three
    fields, a name, an email and an id no stored user has, a password no
    stored hash matches, and both secrets configured, it answers 201 and
    the collection gains exactly one user, at its end, with the password
    hashed at 10 rounds and one refresh token, the one sent back. The gate
    accepts the access token sent back, as the new user, until it
    expires, and the refresh token buys access tokens for seven days. *)
Theorem signup_creates_user env rt (un mail pw k k' : string) db :
  db_ok db →
  un ≠ "" → mail ≠ "" → pw ≠ "" →
  Forall (λ v, username v ≠ un ∧ email v ≠ mail) (users db) →
  Forall (λ v, user_id v ≠ newObjectId rt) (users db) →
  Forall (λ v, bcrypt_compare pw (password v) = false) (users db) →
  JWT_SECRET env = Some k → k ≠ "" →
  REFRESH_SECRET env = Some k' → k' ≠ "" →
  ∃ (accessToken refreshToken : string),
    let db1 :=
      mkDb (users db ++
              [mkUser (newObjectId rt) un mail
                 (bcrypt_hash pw 10 (genSalt rt)) [refreshToken]])
        (bookmarks db) in
    signup env rt (Some un) (Some mail) (Some pw) db
    = (db1, Json 201 (Session "User registered" accessToken refreshToken)) ∧
    (∀ rt' db',
       (now rt' < now rt + expiresIn_15m)%N →
       authenticateUser env rt'
         (Some (String.append "Bearer " accessToken)) db'
       = (db', Value (mkClaims (newObjectId rt) (Some mail) (now rt)
                        (now rt + expiresIn_15m)%N))) ∧
    (∀ rt',
       (now rt' < now rt + expiresIn_7d)%N →
       refresh env rt' (Some refreshToken) db1
       = (db1,
          Json 200
            (AccessToken
               (jwt_sign (newObjectId rt) (Some mail) k (now rt')
                  expiresIn_15m)))).
Proof.
  intros Hok Hun Hmail Hpw Hfree Hid Hscan Hk Hkne Hk' Hk'ne.
  pose proof (signup_success_run env rt un mail pw k k' db Hun Hmail Hpw
                Hfree Hid Hscan Hk Hkne Hk' Hk'ne) as Hrun.
  eexists _, _. split; [exact Hrun|]. split.
  - intros rt' db' Hlive. rewrite authenticateUser_run.
    assert (Some (String.append "Bearer "
                    (jwt_sign (newObjectId rt) (Some mail) k (now rt)
                       expiresIn_15m))
              ≫= (λ a, split " " a !! 1)
            = Some (jwt_sign (newObjectId rt) (Some mail) k (now rt)
                      expiresIn_15m))
      as -> by by apply bearer_token, jwt_sign_no_space.
    destruct (String.eqb_spec
                (jwt_sign (newObjectId rt) (Some mail) k (now rt)
                   expiresIn_15m) "") as [Hempty|_];
      [by apply jwt_sign_nonempty in Hempty|].
    by rewrite Hk, jwt_verify_sign.
  - intros rt' Hlive.
    set (r := jwt_sign (newObjectId rt) None k' (now rt) expiresIn_7d).
    set (new := mkUser (newObjectId rt) un mail
                  (bcrypt_hash pw 10 (genSalt rt)) [r]).
    pose proof (signup_ok env rt (Some un) (Some mail) (Some pw) db Hok)
      as Hok1.
    rewrite Hrun in Hok1. simpl in Hok1. fold r new in Hok1.
    assert (r ≠ "") as Hne by by apply jwt_sign_nonempty.
    pose proof (find_holder _ new r Hok1) as Hfind. simpl in Hfind.
    rewrite refresh_run, truthy_Some by done. simpl.
    rewrite Hfind.
    + unfold r at 1. rewrite Hk', jwt_verify_sign by done.
      by rewrite Hk, truthy_Some.
    + apply elem_of_app. right. apply list_elem_of_here.
    + apply list_elem_of_here.
Qed.
End Registration.

Lemma find_app_None {A} (f : A → bool) (l l' : list A) :
  Forall (λ x, f x = false) l → List.find f (l ++ l') = List.find f l'.
Proof. induction 1 as [|x l Hx _ IH]; [done|]. simpl. by rewrite Hx. Qed.

(** The user record is saved before the tokens are made. When a secret is
    not configured, a signup that passed every check answers 500 and
    leaves the new user in the collection, without a token; the same
    signup sent again, under any configuration, is refused because the
    username is taken. *)
Theorem signup_without_secret_keeps_user env rt (un mail pw : string) db :
  un ≠ "" → mail ≠ "" → pw ≠ "" →
  Forall (λ v, username v ≠ un ∧ email v ≠ mail) (users db) →
  Forall (λ v, user_id v ≠ newObjectId rt) (users db) →
  Forall (λ v, bcrypt_compare pw (password v) = false) (users db) →
  truthy (JWT_SECRET env) = false ∨ truthy (REFRESH_SECRET env) = false →
  let db1 :=
    mkDb (users db ++
            [mkUser (newObjectId rt) un mail
               (bcrypt_hash pw 10 (genSalt rt)) []])
      (bookmarks db) in
  (∃ m, signup env rt (Some un) (Some mail) (Some pw) db
        = (db1, Json 500 (Failure (JsError m)))) ∧
  (∀ env' rt' (pw' : string),
     pw' ≠ "" →
     signup env' rt' (Some un) (Some mail) (Some pw') db1
     = (db1, Json 400 (Message "Username is already taken"))).
Proof.
  intros Hun Hmail Hpw Hfree Hid Hscan Hsecret. split.
  - rewrite signup_run by done. simpl.
    rewrite find_taken_None, (existsb_Forall_false _ _ Hscan) by done.
    rewrite no_conflict by done.
    destruct (truthy (JWT_SECRET env)); [|by eexists].
    destruct (truthy (REFRESH_SECRET env)); [|by eexists].
    by destruct Hsecret.
  - intros env' rt' pw' Hpw'. rewrite signup_run by done. simpl.
    rewrite find_app_None.
    + simpl. rewrite (bool_decide_eq_true_2 (un = un)) by done. simpl.
      by rewrite bool_decide_eq_true_2.
    + eapply List.Forall_impl; [|exact Hfree]. intros v [Hn He]. simpl.
      by rewrite !bool_decide_eq_false_2.
Qed.

(** ** Signup, then login *)

Section Passwords.
Context `{!BcryptLaws}.

(** After a signup that answered 201, a login with the same email and
    password, at any later time [rt2], answers 200: the user gets a second
    refresh token behind the first. *)
Theorem signup_then_login env rt rt2 (un mail pw k k' : string) db :
  un ≠ "" → mail ≠ "" → pw ≠ "" →
  Forall (λ v, username v ≠ un ∧ email v ≠ mail) (users db) →
  Forall (λ v, user_id v ≠ newObjectId rt) (users db) →
  Forall (λ v, bcrypt_compare pw (password v) = false) (users db) →
  JWT_SECRET env = Some k → k ≠ "" →
  REFRESH_SECRET env = Some k' → k' ≠ "" →
  login env rt2 mail pw
    (signup env rt (Some un) (Some mail) (Some pw) db).1
  = (mkDb (users db ++
             [mkUser (newObjectId rt) un mail
                (bcrypt_hash pw 10 (genSalt rt))
                [jwt_sign (newObjectId rt) None k' (now rt) expiresIn_7d;
                 jwt_sign (newObjectId rt) None k' (now rt2) expiresIn_7d]])
       (bookmarks db),
     Json 200
       (Session "Login successful"
          (jwt_sign (newObjectId rt) (Some mail) k (now rt2) expiresIn_15m)
          (jwt_sign (newObjectId rt) None k' (now rt2) expiresIn_7d))).
Proof.
  intros Hun Hmail Hpw Hfree Hid Hscan Hk Hkne Hk' Hk'ne.
  rewrite (signup_success_run env rt un mail pw k k') by done.
  rewrite login_run. simpl. rewrite find_app_None.
  2:{ eapply List.Forall_impl; [|exact Hfree]. intros v [Hn He]. simpl.
      by rewrite bool_decide_eq_false_2. }
  simpl. rewrite bool_decide_eq_true_2 by done. simpl.
  rewrite bcrypt_compare_hash, Hk, Hk', !truthy_Some by done. simpl.
  by rewrite (update_appended (users db)
                (mkUser (newObjectId rt) un mail
                   (bcrypt_hash pw 10 (genSalt rt))
                   [jwt_sign (newObjectId rt) None k' (now rt)
                      expiresIn_7d])).
Qed.

(** After a signup that answered 201, a signup under another name and
    another email, both free, with the same password is refused: the
    password has been used. *)
Theorem signup_password_already_used env rt env2 rt2
    (un mail pw k k' un2 mail2 : string) db :
  un ≠ "" → mail ≠ "" → pw ≠ "" →
  Forall (λ v, username v ≠ un ∧ email v ≠ mail) (users db) →
  Forall (λ v, user_id v ≠ newObjectId rt) (users db) →
  Forall (λ v, bcrypt_compare pw (password v) = false) (users db) →
  JWT_SECRET env = Some k → k ≠ "" →
  REFRESH_SECRET env = Some k' → k' ≠ "" →
  un2 ≠ "" → mail2 ≠ "" → un2 ≠ un → mail2 ≠ mail →
  Forall (λ v, username v ≠ un2 ∧ email v ≠ mail2) (users db) →
  signup env2 rt2 (Some un2) (Some mail2) (Some pw)
    (signup env rt (Some un) (Some mail) (Some pw) db).1
  = ((signup env rt (Some un) (Some mail) (Some pw) db).1,
     Json 400 (Message "This password has already been used")).
Proof.
  intros Hun Hmail Hpw Hfree Hid Hscan Hk Hkne Hk' Hk'ne
    Hun2 Hmail2 Hne1 Hne2 Hfree2.
  rewrite (signup_success_run env rt un mail pw k k') by done.
  rewrite signup_run by done. simpl. rewrite find_taken_None.
  2:{ apply Forall_app. split; [done|]. constructor; [|done]. simpl.
      split; congruence. }
  rewrite existsb_app. simpl.
  by rewrite bcrypt_compare_hash, orb_true_r.
Qed.
End Passwords.

(** ** Login, refresh and logout *)

(** A login is refused with 400 and writes nothing, with one message when
    no stored user has the email and another when the user exists and the
    password does not match the stored hash. *)
Theorem login_refusals env rt (e p : string) db :
  (Forall (λ u, email u ≠ e) (users db) →
   login env rt e p db
   = (db, Json 400 (Message "User with this email does not exists"))) ∧
  (∀ u, db_ok db → u ∈ users db → email u = e →
        bcrypt_compare p (password u) = false →
        login env rt e p db = (db, Json 400 (Message "Invalid password"))).
Proof.
  split.
  - intros Hnone. rewrite login_run.
    replace (List.find _ (users db)) with (@None User); [done|].
    symmetry. rewrite <- (app_nil_r (users db)). rewrite find_app_None; [done|].
    eapply List.Forall_impl; [|exact Hnone]. intros v Hv. simpl.
    by rewrite bool_decide_eq_false_2.
  - intros u [_ _ Hem _ _] Hu <- Hp. rewrite login_run.
    rewrite (find_unique email (users db) u Hem Hu). by rewrite Hp.
Qed.

Section Tokens.
Context `{!JwtLaws}.

(** What login leaves in the database, and its refresh token. *)
Lemma login_success_run env rt (e p k k' : string) db u :
  db_ok db → JWT_SECRET env = Some k → k ≠ "" →
  REFRESH_SECRET env = Some k' → k' ≠ "" →
  u ∈ users db → email u = e → bcrypt_compare p (password u) = true →
  login env rt e p db
  = (mkDb (update_user
             (with_refreshTokens u
                (refreshTokens u
                 ++ [jwt_sign (user_id u) None k' (now rt) expiresIn_7d]))
             (users db)) (bookmarks db),
     Json 200
       (Session "Login successful"
          (jwt_sign (user_id u) (Some (email u)) k (now rt) expiresIn_15m)
          (jwt_sign (user_id u) None k' (now rt) expiresIn_7d))).
Proof.
  intros [_ _ Hem _ _] Hk Hkne Hk' Hk'ne Hu <- Hp. rewrite login_run.
  rewrite (find_unique email (users db) u Hem Hu), Hp, Hk, Hk'.
  by rewrite !truthy_Some.
Qed.

(** The refresh token a login returns buys access tokens for seven days:
    on the database the login left, a refresh with it at a time before
    the seven days are over answers 200 with an access token signed for
    the user at that time; from then on it is answered 403, and since the
    refresh route writes nothing the expired token stays in the
    collection. *)
Theorem login_then_refresh env rt rt' (e p k k' : string) db u :
  db_ok db → JWT_SECRET env = Some k → k ≠ "" →
  REFRESH_SECRET env = Some k' → k' ≠ "" →
  u ∈ users db → email u = e → bcrypt_compare p (password u) = true →
  ((now rt' < now rt + expiresIn_7d)%N →
   refresh env rt'
     (Some (jwt_sign (user_id u) None k' (now rt) expiresIn_7d))
     (login env rt e p db).1
   = ((login env rt e p db).1,
      Json 200
        (AccessToken
           (jwt_sign (user_id u) (Some (email u)) k (now rt')
              expiresIn_15m)))) ∧
  ((now rt + expiresIn_7d ≤ now rt')%N →
   refresh env rt'
     (Some (jwt_sign (user_id u) None k' (now rt) expiresIn_7d))
     (login env rt e p db).1
   = ((login env rt e p db).1,
      Json 403 (Message "Invalid refresh token"))).
Proof.
  intros Hok Hk Hkne Hk' Hk'ne Hu He Hp.
  rewrite (login_success_run env rt e p k k' db u) by done. simpl.
  set (r := jwt_sign (user_id u) None k' (now rt) expiresIn_7d).
  set (u1 := with_refreshTokens u (refreshTokens u ++ [r])).
  set (db1 := mkDb (update_user u1 (users db)) (bookmarks db)).
  assert (db_ok db1) as Hok1.
  { apply update_tokens_ok; [done..|]. apply Forall_app.
    split; [by apply (stored_tokens_issued db)|].
    constructor; [|done]. by exists k', (now rt). }
  assert (u1 ∈ users db1) as Hu1
    by by destruct (update_user_stored db u (refreshTokens u ++ [r]) Hok Hu).
  assert (r ∈ refreshTokens u1) as Hr
    by (simpl; apply elem_of_app; right; apply list_elem_of_here).
  pose proof (find_holder db1 u1 r Hok1 Hu1 Hr) as Hfind.
  assert (r ≠ "") as Hne by by apply jwt_sign_nonempty.
  unfold db1 in *. simpl in Hfind.
  split; intros Ht; rewrite refresh_run, truthy_Some by done;
    simpl; rewrite Hfind, Hk'.
  - unfold r. rewrite jwt_verify_sign by done.
    by rewrite Hk, truthy_Some.
  - unfold r. by rewrite jwt_verify_expired.
Qed.

(** The callback the refresh route gives to [jwt.verify] is an [async]
    function: an exception in it rejects a promise nothing awaits, and the
    handler's [catch] does not see it. So when the access secret is not
    configured, a refresh with a stored token that verifies is never
    answered, neither with a token nor with an error. *)
Theorem refresh_unanswered env rt (t : string) (c : Claims) db u :
  db_ok db → u ∈ users db → t ∈ refreshTokens u →
  jwt_verify t (REFRESH_SECRET env) (now rt) = Some c →
  truthy (JWT_SECRET env) = false →
  refresh env rt (Some t) db = (db, NoReply).
Proof.
  intros Hok Hu Ht Hv Hsecret.
  rewrite refresh_run, truthy_Some
    by by apply (stored_token_nonempty db u).
  simpl. by rewrite (find_holder db u t Hok Hu Ht), Hv, Hsecret.
Qed.

(** What logout leaves in the database. *)
Lemma logout_success_run (t : string) db u :
  db_ok db → u ∈ users db → t ∈ refreshTokens u →
  logout t db
  = (mkDb (update_user
             (with_refreshTokens u
                (List.filter (λ token, negb (String.eqb token t))
                   (refreshTokens u)))
             (users db)) (bookmarks db),
     Json 200 (Message "Logged out successfully")).
Proof.
  intros Hok Hu Ht. by rewrite logout_run, (find_holder db u t Hok Hu Ht).
Qed.

Lemma not_in_filter_out (t : string) (ts : list string) :
  t ∉ List.filter (λ token, negb (String.eqb token t)) ts.
Proof.
  rewrite list_elem_of_In, filter_In, String.eqb_refl. by intros [_ ?].
Qed.

(** A token is gone once logged out: on the database the logout left, a
    refresh with it is answered 403 at any time, and a second logout with
    it is answered 403 and changes nothing. *)
Theorem logout_then_refused (t : string) db u :
  db_ok db → u ∈ users db → t ∈ refreshTokens u →
  (∀ env rt,
     refresh env rt (Some t) (logout t db).1
     = ((logout t db).1, Json 403 (Message "Invalid refresh token"))) ∧
  logout t (logout t db).1
  = ((logout t db).1, Json 403 (Message "Invalid refresh token")).
Proof.
  intros Hok Hu Ht. rewrite (logout_success_run t db u) by done. simpl.
  pose proof (find_holds_token_None t _
                (update_user_unknown db u _ t Hok Hu Ht
                   (not_in_filter_out t (refreshTokens u)))) as Hfind.
  simpl in Hfind. split.
  - intros env rt. rewrite refresh_run, truthy_Some
      by by apply (stored_token_nonempty db u).
    simpl. by rewrite Hfind.
  - rewrite logout_run. simpl. by rewrite Hfind.
Qed.

(** A logout ends one session only: another token of the same user, if it
    still verifies, buys an access token on the database the logout
    left. *)
Theorem logout_keeps_other_sessions env rt (t t' k : string) (c : Claims)
    db u :
  db_ok db → u ∈ users db → t ∈ refreshTokens u → t' ∈ refreshTokens u →
  t' ≠ t →
  jwt_verify t' (REFRESH_SECRET env) (now rt) = Some c →
  JWT_SECRET env = Some k → k ≠ "" →
  refresh env rt (Some t') (logout t db).1
  = ((logout t db).1,
     Json 200
       (AccessToken
          (jwt_sign (user_id u) (Some (email u)) k (now rt) expiresIn_15m))).
Proof.
  intros Hok Hu Ht Ht' Hne Hv Hk Hkne.
  rewrite (logout_success_run t db u) by done. simpl.
  set (ts := List.filter _ (refreshTokens u)).
  set (u1 := with_refreshTokens u ts).
  set (db1 := mkDb (update_user u1 (users db)) (bookmarks db)).
  assert (db_ok db1) as Hok1.
  { apply update_tokens_ok; [done..|]. apply Forall_filter_keep.
    by apply (stored_tokens_issued db). }
  assert (u1 ∈ users db1) as Hu1
    by by destruct (update_user_stored db u ts Hok Hu).
  assert (t' ∈ refreshTokens u1) as Hr.
  { simpl. unfold ts. rewrite list_elem_of_In, filter_In.
    split; [by apply list_elem_of_In|].
    by destruct (String.eqb_spec t' t). }
  pose proof (find_holder db1 u1 t' Hok1 Hu1 Hr) as Hfind.
  unfold db1 in *. simpl in Hfind.
  rewrite refresh_run, truthy_Some
    by by apply (stored_token_nonempty db u).
  simpl. rewrite Hfind, Hv, Hk. by rewrite truthy_Some.
Qed.
End Tokens.

(** ** The gate *)

(** The gate takes the second word of the header as the token, whatever
    the first word is and whatever follows the second: a header with
    another scheme, or with more words, is treated as [Bearer <token>]. *)
Theorem gate_reads_second_word env rt (scheme tok rest : string) db :
  has_char " " scheme = false → has_char " " tok = false →
  authenticateUser env rt (Some (String.append scheme (String " " tok))) db
  = authenticateUser env rt (Some (String.append "Bearer " tok)) db ∧
  authenticateUser env rt
    (Some (String.append scheme
             (String " " (String.append tok (String " " rest))))) db
  = authenticateUser env rt (Some (String.append "Bearer " tok)) db.
Proof.
  intros Hs Ht. rewrite !authenticateUser_run.
  assert (Some (String.append "Bearer " tok) ≫= (λ a, split " " a !! 1)
          = Some tok) as -> by by apply bearer_token.
  assert (Some (String.append scheme (String " " tok))
            ≫= (λ a, split " " a !! 1) = Some tok) as ->.
  { simpl. by rewrite split_word, split_no_sep. }
  assert (Some (String.append scheme
                  (String " " (String.append tok (String " " rest))))
            ≫= (λ a, split " " a !! 1) = Some tok) as ->.
  { simpl. by rewrite !split_word. }
  done.
Qed.

(** The gate decides on the token and the clock alone: what it answers
    does not depend on the database. *)
Lemma authenticateUser_stateless env rt (a : option string) db db' :
  (authenticateUser env rt a db).2 = (authenticateUser env rt a db').2.
Proof. by rewrite !authenticateUser_run. Qed.

(** Logout-all does not reach access tokens. After a logout-all, a
    request with the same access token, made while the token verifies, is
    still served: the list route answers 200 with the caller's
    bookmarks. *)
Theorem access_token_outlives_logoutAll env rt rt' (a : option string)
    (c c' : Claims) db :
  authenticateUser env rt a db = (db, Value c) →
  authenticateUser env rt' a db = (db, Value c') →
  app env rt' (GetBookmarks a) (app env rt (PostLogoutAll a) db).1
  = ((app env rt (PostLogoutAll a) db).1,
     Json 200 (BookmarkDocs (List.filter (owned_by c') (bookmarks db)))).
Proof.
  intros Hgate Hgate'. simpl.
  rewrite (protected_run env rt), Hgate. simpl.
  set (db1 := (logoutAll c db).1).
  assert (bookmarks db1 = bookmarks db) as Hbm.
  { unfold db1. rewrite logoutAll_run. by destruct (List.find _ _). }
  rewrite protected_run, (authenticateUser_stateless env rt' a db1 db).
  rewrite Hgate'. simpl. by rewrite listBookmarks_store_order, Hbm.
Qed.

Section Lifetime.
Context `{!JwtLaws}.

(** The access token of a login lasts fifteen minutes: from the second it
    expires the gate answers 403 to it, on any database. *)
Theorem login_access_token_expires env rt (e p k k' : string) db u :
  db_ok db → JWT_SECRET env = Some k → k ≠ "" →
  REFRESH_SECRET env = Some k' → k' ≠ "" →
  u ∈ users db → email u = e → bcrypt_compare p (password u) = true →
  ∃ db' accessToken refreshToken,
    login env rt e p db
    = (db', Json 200 (Session "Login successful" accessToken refreshToken)) ∧
    ∀ rt' db2,
      (now rt + expiresIn_15m ≤ now rt')%N →
      authenticateUser env rt'
        (Some (String.append "Bearer " accessToken)) db2
      = (db2, Sent (Json 403 (Message "Invalid or expired token"))).
Proof.
  intros Hok Hk Hkne Hk' Hk'ne Hu He Hp. eexists _, _, _. split.
  - by apply (login_success_run env rt e p k k' db u).
  - intros rt' db2 Hexp. by apply authenticateUser_expired.
Qed.
End Lifetime.

(** ** What a request can change *)

(** Signup changes nothing, or appends one user under the generated id,
    an id no stored user has. *)
Lemma signup_effect env rt (bu be bp : option string) db :
  (signup env rt bu be bp db).1 = db ∨
  ∃ new,
    (signup env rt bu be bp db).1 = mkDb (users db ++ [new]) (bookmarks db) ∧
    user_id new = newObjectId rt ∧
    Forall (λ v, user_id v ≠ newObjectId rt) (users db).
Proof.
  destruct (truthy bu) eqn:Hu; [|by left; unfold signup; rewrite Hu].
  destruct (truthy be) eqn:He; [|by left; unfold signup; rewrite Hu, He].
  destruct (truthy bp) eqn:Hp;
    [|by left; unfold signup; rewrite Hu, He, Hp].
  apply truthy_inv in Hu as (un & -> & Hun).
  apply truthy_inv in He as (mail & -> & Hmail).
  apply truthy_inv in Hp as (pw & -> & Hpw).
  rewrite signup_run by done. simpl.
  set (new := mkUser _ _ _ _ _).
  assert (existsb (User_conflict new) (users db) = false →
          Forall (λ v, user_id v ≠ newObjectId rt) (users db)) as Hfresh.
  { intros Hno. apply Forall_forall. intros v Hv.
    pose proof (existsb_false _ _ Hno v Hv) as Hc. unfold User_conflict in Hc.
    rewrite !orb_false_iff, !bool_decide_eq_false in Hc. tauto. }
  destruct (List.find _ (users db)) as [existing|];
    [destruct (bool_decide (username existing = _)); [by left|];
     destruct (bool_decide (email existing = _)); [by left|] |];
    (destruct (existsb (λ user, bcrypt_compare pw (password user))
                (users db)); [by left|]);
    (destruct (existsb (User_conflict new) (users db)); [by left|]);
    specialize (Hfresh eq_refl); right;
    (destruct (truthy (JWT_SECRET env)); [|by exists new]);
    (destruct (truthy (REFRESH_SECRET env)); [|by exists new]);
    simpl; rewrite (update_appended (users db) new) by done;
    by eexists.
Qed.

(** A saved user keeps its id, name, email and password. *)
Lemma update_user_keeps db (x : User) (ts : list string) u :
  db_ok db → x ∈ users db → u ∈ users db →
  ∃ u', u' ∈ update_user (with_refreshTokens x ts) (users db) ∧
        user_id u' = user_id u ∧ username u' = username u ∧
        email u' = email u ∧ password u' = password u.
Proof.
  intros Hok Hx Hu.
  destruct (update_user_stored db x ts Hok Hx) as [Hsaved Hothers].
  destruct (decide (u = x)) as [->|Hne].
  - by exists (with_refreshTokens x ts).
  - exists u. split; [by apply Hothers|done].
Qed.

(** No route deletes a user or touches the fields that identify one: a
    stored user is still stored after any request, under the same id,
    with the same username, email and password hash. Only its collection
    of refresh tokens can differ. *)
Theorem users_persist env rt (req : Request) db u :
  db_ok db → u ∈ users db →
  ∃ u', u' ∈ users (app env rt req db).1 ∧
        user_id u' = user_id u ∧ username u' = username u ∧
        email u' = email u ∧ password u' = password u.
Proof.
  intros Hok Hu.
  assert (∀ db', users db' = users db →
            ∃ u', u' ∈ users db' ∧ user_id u' = user_id u ∧
                  username u' = username u ∧ email u' = email u ∧
                  password u' = password u) as Hsame.
  { intros db' ->. by exists u. }
  assert (∀ a handler,
            (∀ c, ∃ u', u' ∈ users (handler c db).1 ∧
                        user_id u' = user_id u ∧ username u' = username u ∧
                        email u' = email u ∧ password u' = password u) →
            ∃ u', u' ∈ users (protected env rt a handler db).1 ∧
                  user_id u' = user_id u ∧ username u' = username u ∧
                  email u' = email u ∧ password u' = password u) as Hprot.
  { intros a handler Hh. rewrite protected_run.
    destruct ((authenticateUser env rt a db).2); [apply Hh|by apply Hsame..]. }
  destruct req as [bu be bp|e p|t|t|a|a body|a|a id]; simpl.
  - destruct (signup_effect env rt bu be bp db) as [->|(new & -> & _)];
      [by apply Hsame|].
    exists u. split; [|done]. simpl. apply elem_of_app. by left.
  - rewrite login_run.
    destruct (List.find _ (users db)) as [x|] eqn:Hfind; [|by apply Hsame].
    apply find_Some_elem in Hfind as [Hx _].
    destruct (bcrypt_compare p (password x)); [|by apply Hsame].
    destruct (truthy (JWT_SECRET env)); [|by apply Hsame].
    destruct (truthy (REFRESH_SECRET env)); [|by apply Hsame].
    simpl. by apply update_user_keeps.
  - rewrite refresh_db_unchanged. by apply Hsame.
  - rewrite logout_run.
    destruct (List.find _ (users db)) as [x|] eqn:Hfind; [|by apply Hsame].
    apply find_Some_elem in Hfind as [Hx _]. simpl.
    by apply update_user_keeps.
  - apply Hprot. intros c. rewrite logoutAll_run.
    destruct (List.find _ (users db)) as [x|] eqn:Hfind; [|by apply Hsame].
    apply find_Some_elem in Hfind as [Hx _]. simpl.
    by apply update_user_keeps.
  - apply Hprot. intros c. apply Hsame. rewrite createBookmark_run.
    destruct (new_Bookmark _ _); [|done]. by destruct (existsb _ _).
  - apply Hprot. intros c. apply Hsame.
    by rewrite listBookmarks_store_order.
  - apply Hprot. intros c. apply Hsame. rewrite deleteBookmark_run.
    destruct (ObjectId_of_hex id) as [oid|]; [|done].
    by destruct (remove_first _ _) as [[b r]|].
Qed.

(** The refresh tokens of a user change only through that user's own
    sessions: if a stored user is not stored unchanged after a request,
    the request is a login with that user's email, a logout with a token
    that user holds, or a logout-all that passed the gate as that user. *)
Theorem sessions_changed_by_owner env rt (req : Request) db u :
  db_ok db → u ∈ users db → u ∉ users (app env rt req db).1 →
  (∃ p, req = PostLogin (email u) p) ∨
  (∃ t, req = PostLogout t ∧ t ∈ refreshTokens u) ∨
  (∃ a c, req = PostLogoutAll a ∧
          authenticateUser env rt a db = (db, Value c) ∧
          tok_userId c = user_id u).
Proof.
  intros Hok Hu.
  assert (∀ x ts, x ∈ users db →
            u ∉ update_user (with_refreshTokens x ts) (users db) → u = x)
    as Hsaved.
  { intros x ts Hx Hgone. destruct (decide (u = x)) as [|Hne]; [done|].
    destruct Hgone. by apply (update_user_stored db x ts Hok Hx). }
  destruct req as [bu be bp|e p|t|t|a|a body|a|a id]; simpl.
  - destruct (signup_effect env rt bu be bp db) as [->|(new & -> & _)];
      [done|].
    simpl. intros []. apply elem_of_app. by left.
  - rewrite login_run.
    destruct (List.find _ (users db)) as [x|] eqn:Hfind; [|done].
    apply find_Some_elem in Hfind as [Hx He].
    apply bool_decide_eq_true in He.
    destruct (bcrypt_compare p (password x)); [|done].
    destruct (truthy (JWT_SECRET env)); [|done].
    destruct (truthy (REFRESH_SECRET env)); [|done].
    simpl. intros ->%Hsaved; [|done]. left. exists p. by rewrite He.
  - by rewrite refresh_db_unchanged.
  - rewrite logout_run.
    destruct (List.find _ (users db)) as [x|] eqn:Hfind; [|done].
    apply find_Some_elem in Hfind as [Hx Ht].
    apply bool_decide_eq_true in Ht.
    simpl. intros ->%Hsaved; [|done]. right; left. by exists t.
  - rewrite protected_run.
    pose proof (authenticateUser_db_unchanged env rt a db) as Hdb.
    destruct (authenticateUser env rt a db) as [db0 [c|r|x]] eqn:Hgate;
      simpl in *; subst db0; [|done..].
    rewrite logoutAll_run.
    destruct (List.find _ (users db)) as [x|] eqn:Hfind; [|done].
    apply find_Some_elem in Hfind as [Hx Hid].
    apply bool_decide_eq_true in Hid.
    simpl. intros ->%Hsaved; [|done]. right; right. by exists a, c.
  - rewrite protected_run. destruct ((authenticateUser env rt a db).2);
      [|done..].
    rewrite createBookmark_run. destruct (new_Bookmark _ _); [|done].
    by destruct (existsb _ _).
  - rewrite protected_run. destruct ((authenticateUser env rt a db).2);
      [|done..].
    by rewrite listBookmarks_store_order.
  - rewrite protected_run. destruct ((authenticateUser env rt a db).2);
      [|done..].
    rewrite deleteBookmark_run.
    destruct (ObjectId_of_hex id) as [oid|]; [|done].
    by destruct (remove_first _ _) as [[b r]|].
Qed.

(** A stored bookmark leaves the store through one door only: if it is
    gone after a request, the request is a delete whose parameter spells
    its id and that passed the gate as its owner. No other route, and no
    other user, removes or replaces it. *)
Theorem bookmark_removed_by_owner env rt (req : Request) db (b : Bookmark) :
  b ∈ bookmarks db → b ∉ bookmarks (app env rt req db).1 →
  ∃ a id c, req = DeleteBookmark a id ∧
            ObjectId_of_hex id = Some (bookmark_id b) ∧
            authenticateUser env rt a db = (db, Value c) ∧
            tok_userId c = userId b.
Proof.
  intros Hb.
  destruct req as [bu be bp|e p|t|t|a|a body|a|a id]; simpl.
  - by destruct (signup_effect env rt bu be bp db) as [->|(new & -> & _)].
  - rewrite login_run. destruct (List.find _ (users db)) as [x|]; [|done].
    destruct (bcrypt_compare p (password x)); [|done].
    destruct (truthy (JWT_SECRET env)); [|done].
    by destruct (truthy (REFRESH_SECRET env)).
  - by rewrite refresh_db_unchanged.
  - rewrite logout_run. by destruct (List.find _ (users db)).
  - rewrite protected_run. destruct ((authenticateUser env rt a db).2);
      [|done..].
    rewrite logoutAll_run. by destruct (List.find _ (users db)).
  - rewrite protected_run. destruct ((authenticateUser env rt a db).2);
      [|done..].
    rewrite createBookmark_run. destruct (new_Bookmark _ _); [|done].
    destruct (existsb _ _); [done|]. simpl. intros []. apply elem_of_app.
    by left.
  - rewrite protected_run. destruct ((authenticateUser env rt a db).2);
      [|done..].
    by rewrite listBookmarks_store_order.
  - rewrite protected_run.
    pose proof (authenticateUser_db_unchanged env rt a db) as Hdb.
    destruct (authenticateUser env rt a db) as [db0 [c|r|x]] eqn:Hgate;
      simpl in *; subst db0; [|done..].
    rewrite deleteBookmark_run.
    destruct (ObjectId_of_hex id) as [oid|] eqn:Hcast; [|done].
    destruct (remove_first _ (bookmarks db)) as [[x r]|] eqn:Hrm; [|done].
    apply remove_first_Some in Hrm as (l1 & l2 & Hl & -> & Hx & _).
    simpl. intros Hgone. rewrite Hl in Hb.
    assert (b = x) as ->.
    { apply elem_of_app in Hb as [Hb|Hb].
      - destruct Hgone. apply elem_of_app. by left.
      - apply elem_of_cons in Hb as [->|Hb]; [done|].
        destruct Hgone. apply elem_of_app. by right. }
    apply deletable_filter in Hx as [<- Hown]. by exists a, id, c.
Qed.

(** A request that is answered with a 4xx status has written nothing: the
    database after it is the database before it. *)
Theorem refusals_write_nothing env rt (req : Request) db (status : nat)
    (body : Body) :
  (app env rt req db).2 = Json status body → 400 ≤ status < 500 →
  (app env rt req db).1 = db.
Proof.
  assert (∀ (r : Db * Reply) (s : nat) (bd : Body),
            r.2 = Json s bd → (s = 200 ∨ s = 201 ∨ s = 500) →
            r.2 = Json status body → 400 ≤ status < 500 → r.1 = db)
    as Hwrote.
  { intros r s bd -> Hs [= -> _] Hrange. lia. }
  destruct req as [bu be bp|e p|t|t|a|a body'|a|a id]; simpl.
  - destruct (truthy bu) eqn:Hu; [|by unfold signup; rewrite Hu].
    destruct (truthy be) eqn:He; [|by unfold signup; rewrite Hu, He].
    destruct (truthy bp) eqn:Hp; [|by unfold signup; rewrite Hu, He, Hp].
    apply truthy_inv in Hu as (un & -> & Hun).
    apply truthy_inv in He as (mail & -> & Hmail).
    apply truthy_inv in Hp as (pw & -> & Hpw).
    rewrite signup_run by done. simpl.
    destruct (List.find _ (users db)) as [existing|];
      [destruct (bool_decide (username existing = _)); [done|];
       destruct (bool_decide (email existing = _)); [done|] |];
      (destruct (existsb (λ user, bcrypt_compare pw (password user))
                  (users db)); [done|]);
      (destruct (existsb (User_conflict _) (users db));
        [by eapply Hwrote; [|right; right] |]);
      (destruct (truthy (JWT_SECRET env));
        [|by eapply Hwrote; [|right; right] ]);
      (destruct (truthy (REFRESH_SECRET env));
        [|by eapply Hwrote; [|right; right] ]);
      by eapply Hwrote; [|right; left].
  - rewrite login_run. destruct (List.find _ (users db)) as [x|]; [|done].
    destruct (bcrypt_compare p (password x)); [|done].
    destruct (truthy (JWT_SECRET env)); [|done].
    destruct (truthy (REFRESH_SECRET env)); [|done].
    by eapply Hwrote; [|left].
  - intros _ _. apply refresh_db_unchanged.
  - rewrite logout_run. destruct (List.find _ (users db)); [|done].
    by eapply Hwrote; [|left].
  - rewrite protected_run. destruct ((authenticateUser env rt a db).2);
      [|done..].
    rewrite logoutAll_run. destruct (List.find _ (users db)); [|done].
    by eapply Hwrote; [|left].
  - rewrite protected_run. destruct ((authenticateUser env rt a db).2);
      [|done..].
    rewrite createBookmark_run. destruct (new_Bookmark _ _); [|done].
    destruct (existsb _ _); [done|]. by eapply Hwrote; [|right; left].
  - rewrite protected_run. destruct ((authenticateUser env rt a db).2);
      [|done..].
    by rewrite listBookmarks_store_order.
  - rewrite protected_run. destruct ((authenticateUser env rt a db).2);
      [|done..].
    rewrite deleteBookmark_run.
    destruct (ObjectId_of_hex id) as [oid|];
      [|by eapply Hwrote; [|right; right]].
    destruct (remove_first _ _) as [[b r]|]; [|done].
    by eapply Hwrote; [|left].
Qed.

Section Reachable.
Context `{!JwtLaws}.

(** In every database the server can reach, user ids, usernames and
    emails are unique, bookmark ids are unique, and no refresh token is
    held by two users. *)
Theorem reachable_unique db :
  reachable db →
  NoDup (user_id <$> users db) ∧ NoDup (username <$> users db) ∧
  NoDup (email <$> users db) ∧ NoDup (bookmark_id <$> bookmarks db) ∧
  (∀ u v (t : string),
     u ∈ users db → v ∈ users db →
     t ∈ refreshTokens u → t ∈ refreshTokens v → u = v).
Proof.
  intros Hok%reachable_ok.
  destruct Hok as [Hid Hun Hem Htok Hbm] eqn:E.
  repeat (split; [done|]).
  intros u v t. by apply token_holder_unique.
Qed.
End Reachable.

(** ** Bookmarks *)

(** The list route shows a caller exactly the stored bookmarks that caller
    owns, none of another user, and writes nothing. *)
Theorem listBookmarks_only_own env rt (a : option string) (c : Claims) db :
  authenticateUser env rt a db = (db, Value c) →
  ∃ bs,
    app env rt (GetBookmarks a) db = (db, Json 200 (BookmarkDocs bs)) ∧
    ∀ b, b ∈ bs ↔ b ∈ bookmarks db ∧ userId b = tok_userId c.
Proof.
  intros Hgate. eexists. split.
  - simpl. rewrite protected_run, Hgate. simpl.
    apply listBookmarks_store_order.
  - intros b. rewrite !list_elem_of_In, filter_In. unfold owned_by.
    by rewrite bool_decide_eq_true.
Qed.

Lemma createBookmark_created rt (body : gmap string JsValue) (c : Claims)
    db db' (b : Bookmark) :
  createBookmark rt body c db = (db', Json 201 (BookmarkDoc b)) →
  db' = mkDb (users db) (bookmarks db ++ [b]) ∧
  new_Bookmark (newObjectId rt) (<["userId" := JId (tok_userId c)]> body)
  = Some b ∧
  Forall (λ x, bookmark_id x ≠ bookmark_id b) (bookmarks db).
Proof.
  rewrite createBookmark_run.
  destruct (new_Bookmark _ _) as [b'|] eqn:Hnew; [|done].
  destruct (existsb _ (bookmarks db)) eqn:Hfresh; [done|].
  intros [= <- <-]. repeat split. apply Forall_forall. intros x Hx.
  pose proof (existsb_false _ _ Hfresh x Hx) as Hne.
  by apply bool_decide_eq_false in Hne.
Qed.

Lemma new_Bookmark_owner (fresh : ObjectId) (body : gmap string JsValue)
    (uid : ObjectId) (b : Bookmark) :
  new_Bookmark fresh (<["userId" := JId uid]> body) = Some b →
  userId b = uid.
Proof.
  unfold new_Bookmark. rewrite lookup_insert_eq. intros Hnew.
  by simplify_option_eq.
Qed.

(** A bookmark that was created (201) is the last entry of its owner's
    next list, and no other user's list shows it. *)
Theorem created_bookmark_listed rt (body : gmap string JsValue)
    (c : Claims) db db' (b : Bookmark) :
  createBookmark rt body c db = (db', Json 201 (BookmarkDoc b)) →
  listBookmarks c db'
  = (db', Json 200
            (BookmarkDocs (List.filter (owned_by c) (bookmarks db) ++ [b]))) ∧
  (∀ c2, tok_userId c2 ≠ tok_userId c →
         listBookmarks c2 db'
         = (db', Json 200
                   (BookmarkDocs (List.filter (owned_by c2) (bookmarks db))))).
Proof.
  intros (-> & Hnew%new_Bookmark_owner & _)%createBookmark_created.
  split; [|intros c2 Hc2]; rewrite listBookmarks_store_order; simpl;
    rewrite List.filter_app; simpl; unfold owned_by at 2.
  - by rewrite bool_decide_eq_true_2.
  - by rewrite bool_decide_eq_false_2, app_nil_r by congruence.
Qed.


(** After a delete that answered 200, under the invariant of the routes,
    the parameter spelled an ObjectId, no list shows a bookmark with that
    id, and the caller's other bookmarks are all still listed. *)
Theorem deleted_bookmark_unlisted (id : string) (c : Claims) db
    (m : string) :
  db_ok db → (deleteBookmark id c db).2 = Json 200 (Message m) →
  ∃ oid bs,
    ObjectId_of_hex id = Some oid ∧
    listBookmarks c (deleteBookmark id c db).1
    = ((deleteBookmark id c db).1, Json 200 (BookmarkDocs bs)) ∧
    Forall (λ b, bookmark_id b ≠ oid) bs ∧
    (∀ b, b ∈ bookmarks db → userId b = tok_userId c →
          bookmark_id b ≠ oid → b ∈ bs).
Proof.
  intros Hok Hdel.
  destruct (deleteBookmark_gone id c db m Hok Hdel) as (oid & Hcast & Hgone).
  exists oid. eexists. split; [done|].
  split; [apply listBookmarks_store_order|]. split.
  - apply Forall_forall. intros b Hb.
    apply list_elem_of_In, filter_In in Hb as [Hb _].
    rewrite Forall_forall in Hgone. by apply Hgone, list_elem_of_In.
  - intros b Hb Hown Hne. apply list_elem_of_In, filter_In.
    split; [|by apply bool_decide_eq_true].
    apply list_elem_of_In. revert Hdel. rewrite deleteBookmark_run, Hcast.
    destruct (remove_first _ (bookmarks db)) as [[x r]|] eqn:Hrm; [|done].
    apply remove_first_Some in Hrm as (l1 & l2 & Hl & -> & Hx & _).
    intros _. simpl. rewrite Hl in Hb.
    apply deletable_filter in Hx as [Hxid _].
    apply elem_of_app in Hb as [Hb|Hb]; apply elem_of_app; [by left|].
    apply elem_of_cons in Hb as [->|Hb]; [done|by right].
Qed.
End Routes.

(** ** The further properties on the run *)

Lemma plain_bcrypt_laws : @BcryptLaws plain_bcrypt.
Proof. split. intros pw rounds salt. simpl. apply String.eqb_refl. Qed.

Lemma db_sessions_ok : @db_ok plain_jwt db_sessions.
Proof. apply (@reachable_ok plain_jwt plain_bcrypt), db_sessions_reachable. Qed.

Lemma db_bookmarks_ok : @db_ok plain_jwt db_bookmarks.
Proof.
  apply (@reachable_ok plain_jwt plain_bcrypt), db_bookmarks_reachable.
Qed.

Lemma db_same_second_ok : @db_ok plain_jwt db_same_second.
Proof.
  apply (@reachable_ok plain_jwt plain_bcrypt).
  unfold db_same_second, db_two, db_ann, serve.
  repeat apply reachable_step. apply reachable_empty.
Qed.

(** A signup under Ann's username, with an email nobody has. *)
Lemma signup_rejects_taken_name_witness :
  ∃ m,
    @signup plain_jwt plain_bcrypt env0 (at_time 3000 carol_id)
      (Some "ann") (Some "new@example.org") (Some "tr0ub4dor") db_sessions
    = (db_sessions, Json 400 (Message m)) ∧
    (m = "Username is already taken" ∨ m = "Email is already in use").
Proof.
  apply (@signup_rejects_taken_name plain_jwt plain_bcrypt env0
           (at_time 3000 carol_id) "ann" "new@example.org" "tr0ub4dor"
           db_sessions ann); [run_hyp..|by left].
Defined.

(** Carol signs up. *)
Lemma signup_creates_user_witness :
  ∃ (accessToken refreshToken : string),
    let db1 :=
      mkDb (users db_sessions ++
              [mkUser carol_id "carol" "carol@example.org" "$2a$tr0ub4dor"
                 [refreshToken]])
        (bookmarks db_sessions) in
    @signup plain_jwt plain_bcrypt env0 (at_time 3000 carol_id)
      (Some "carol") (Some "carol@example.org") (Some "tr0ub4dor")
      db_sessions
    = (db1, Json 201 (Session "User registered" accessToken refreshToken)) ∧
    (∀ rt' db',
       (now rt' < 3000 + expiresIn_15m)%N →
       @authenticateUser plain_jwt env0 rt'
         (Some (String.append "Bearer " accessToken)) db'
       = (db', Value (mkClaims carol_id (Some "carol@example.org") 3000
                        (3000 + expiresIn_15m)%N))) ∧
    (∀ rt',
       (now rt' < 3000 + expiresIn_7d)%N →
       @refresh plain_jwt env0 rt' (Some refreshToken) db1
       = (db1,
          Json 200
            (AccessToken
               (access_token_of carol_id "carol@example.org" (now rt'))))).
Proof.
  apply (@signup_creates_user plain_jwt plain_bcrypt plain_jwt_laws env0
           (at_time 3000 carol_id) "carol" "carol@example.org" "tr0ub4dor"
           "access-secret" "refresh-secret" db_sessions db_sessions_ok);
    run_hyp.
Defined.

(** Carol signs up while the access secret is not set, and tries again
    once it is. *)
Lemma signup_without_secret_keeps_user_witness :
  users (@signup plain_jwt plain_bcrypt env_no_access (at_time 3000 carol_id)
           (Some "carol") (Some "carol@example.org") (Some "tr0ub4dor")
           db_sessions).1
  = [ann; bob; with_refreshTokens carol []] ∧
  (@signup plain_jwt plain_bcrypt env0 (at_time 3050 spare_id)
     (Some "carol") (Some "carol@example.org") (Some "tr0ub4dor")
     (@signup plain_jwt plain_bcrypt env_no_access (at_time 3000 carol_id)
        (Some "carol") (Some "carol@example.org") (Some "tr0ub4dor")
        db_sessions).1).2
  = Json 400 (Message "Username is already taken").
Proof.
  destruct (@signup_without_secret_keeps_user plain_jwt plain_bcrypt
              env_no_access (at_time 3000 carol_id) "carol" "carol@example.org"
              "tr0ub4dor" db_sessions) as [[m Hrun] Hretry];
    [run_hyp..|by left|].
  rewrite Hrun. cbn [fst]. split; [by_run|].
  by rewrite (Hretry env0 (at_time 3050 spare_id) "tr0ub4dor").
Defined.

(** Carol signs up and logs in a hundred seconds later. *)
Lemma signup_then_login_witness :
  (@login plain_jwt plain_bcrypt env0 (at_time 3100 "-")
     "carol@example.org" "tr0ub4dor"
     (@signup plain_jwt plain_bcrypt env0 (at_time 3000 carol_id)
        (Some "carol") (Some "carol@example.org") (Some "tr0ub4dor")
        db_sessions).1).2
  = Json 200
      (Session "Login successful"
         (access_token_of carol_id "carol@example.org" 3100)
         (refresh_token_of carol_id 3100)).
Proof.
  rewrite (@signup_then_login plain_jwt plain_bcrypt plain_bcrypt_laws env0
             (at_time 3000 carol_id) (at_time 3100 "-") "carol"
             "carol@example.org" "tr0ub4dor" "access-secret"
             "refresh-secret" db_sessions) by run_hyp.
  reflexivity.
Defined.

(** Dave signs up after Carol, with her password. *)
Lemma signup_password_already_used_witness :
  (@signup plain_jwt plain_bcrypt env0 (at_time 3200 spare_id)
     (Some "dave") (Some "dave@example.org") (Some "tr0ub4dor")
     (@signup plain_jwt plain_bcrypt env0 (at_time 3000 carol_id)
        (Some "carol") (Some "carol@example.org") (Some "tr0ub4dor")
        db_sessions).1).2
  = Json 400 (Message "This password has already been used").
Proof.
  rewrite (@signup_password_already_used plain_jwt plain_bcrypt
             plain_bcrypt_laws env0 (at_time 3000 carol_id) env0
             (at_time 3200 spare_id) "carol" "carol@example.org" "tr0ub4dor"
             "access-secret" "refresh-secret" "dave" "dave@example.org"
             db_sessions) by run_hyp.
  reflexivity.
Defined.

(** A login under an email nobody has, and a login as Ann with Bob's
    password. *)
Lemma login_refusals_witness :
  @login plain_jwt plain_bcrypt env0 (at_time 2500 "-")
    "nobody@example.org" "correct horse" db_sessions
  = (db_sessions,
     Json 400 (Message "User with this email does not exists")) ∧
  @login plain_jwt plain_bcrypt env0 (at_time 2500 "-")
    "ann@example.org" "battery staple" db_sessions
  = (db_sessions, Json 400 (Message "Invalid password")).
Proof.
  split.
  - apply (@login_refusals plain_jwt plain_bcrypt env0 (at_time 2500 "-")
             "nobody@example.org" "correct horse" db_sessions).
    run_hyp.
  - apply (proj2 (@login_refusals plain_jwt plain_bcrypt env0
                    (at_time 2500 "-") "ann@example.org" "battery staple"
                    db_sessions) ann db_sessions_ok); run_hyp.
Defined.

(** Ann's refresh token of second 2000, one second before its seven days
    are over and at the second they are. *)
Lemma login_then_refresh_witness :
  @refresh plain_jwt env0 (at_time 606799 "-")
    (Some (refresh_token_of ann_id 2000)) db_sessions
  = (db_sessions,
     Json 200 (AccessToken (access_token_of ann_id "ann@example.org" 606799))) ∧
  @refresh plain_jwt env0 (at_time 606800 "-")
    (Some (refresh_token_of ann_id 2000)) db_sessions
  = (db_sessions, Json 403 (Message "Invalid refresh token")).
Proof.
  split.
  - apply (@login_then_refresh plain_jwt plain_bcrypt plain_jwt_laws env0
             (at_time 2000 "-") (at_time 606799 "-") "ann@example.org"
             "correct horse" "access-secret" "refresh-secret" db_same_second
             ann_before db_same_second_ok); run_hyp.
  - apply (@login_then_refresh plain_jwt plain_bcrypt plain_jwt_laws env0
             (at_time 2000 "-") (at_time 606800 "-") "ann@example.org"
             "correct horse" "access-secret" "refresh-secret" db_same_second
             ann_before db_same_second_ok); run_hyp.
Defined.

(** A refresh with Ann's stored token while the access secret is not
    set. *)
Lemma refresh_unanswered_witness :
  @refresh plain_jwt env_no_access (at_time 2100 "-")
    (Some (refresh_token_of ann_id 2000)) db_sessions
  = (db_sessions, NoReply).
Proof.
  apply (@refresh_unanswered plain_jwt plain_jwt_laws env_no_access
           (at_time 2100 "-") (refresh_token_of ann_id 2000)
           (mkClaims ann_id None 2000 (2000 + expiresIn_7d)%N) db_sessions ann
           db_sessions_ok); run_hyp.
Defined.

(** Ann logs out with her token of second 1000, then uses it again. *)
Lemma logout_then_refused_witness :
  (∀ env rt,
     @refresh plain_jwt env rt (Some (refresh_token_of ann_id 1000))
       (logout (refresh_token_of ann_id 1000) db_sessions).1
     = ((logout (refresh_token_of ann_id 1000) db_sessions).1,
        Json 403 (Message "Invalid refresh token"))) ∧
  logout (refresh_token_of ann_id 1000)
    (logout (refresh_token_of ann_id 1000) db_sessions).1
  = ((logout (refresh_token_of ann_id 1000) db_sessions).1,
     Json 403 (Message "Invalid refresh token")).
Proof.
  apply (@logout_then_refused plain_jwt plain_jwt_laws
           (refresh_token_of ann_id 1000) db_sessions ann db_sessions_ok);
    run_hyp.
Defined.

(** Ann logs out with her token of second 1000 and refreshes with the one
    of second 2000. *)
Lemma logout_keeps_other_sessions_witness :
  @refresh plain_jwt env0 (at_time 2100 "-")
    (Some (refresh_token_of ann_id 2000))
    (logout (refresh_token_of ann_id 1000) db_sessions).1
  = ((logout (refresh_token_of ann_id 1000) db_sessions).1,
     Json 200 (AccessToken (access_token_of ann_id "ann@example.org" 2100))).
Proof.
  apply (@logout_keeps_other_sessions plain_jwt plain_jwt_laws env0
           (at_time 2100 "-") (refresh_token_of ann_id 1000)
           (refresh_token_of ann_id 2000) "access-secret"
           (mkClaims ann_id None 2000 (2000 + expiresIn_7d)%N) db_sessions ann
           db_sessions_ok); run_hyp.
Defined.

(** Ann's access token under the scheme "Basic", and followed by another
    word. *)
Lemma gate_reads_second_word_witness :
  @authenticateUser plain_jwt env0 (at_time 2100 "-")
    (Some (String.append "Basic"
             (String " " (access_token_of ann_id "ann@example.org" 2000))))
    db_sessions
  = @authenticateUser plain_jwt env0 (at_time 2100 "-") ann_bearer
      db_sessions ∧
  @authenticateUser plain_jwt env0 (at_time 2100 "-")
    (Some (String.append "Basic"
             (String " "
                (String.append (access_token_of ann_id "ann@example.org" 2000)
                   (String " " "please")))))
    db_sessions
  = @authenticateUser plain_jwt env0 (at_time 2100 "-") ann_bearer
      db_sessions.
Proof.
  apply (@gate_reads_second_word plain_jwt env0 (at_time 2100 "-") "Basic"
           (access_token_of ann_id "ann@example.org" 2000) "please"
           db_sessions); run_hyp.
Defined.

(** Ann logs out everywhere at time 2300 and lists her bookmarks at time
    2400 with the access token of time 2000. *)
Lemma access_token_outlives_logoutAll_witness :
  serve env0 (at_time 2400 "-") (GetBookmarks ann_bearer)
    (serve env0 (at_time 2300 "-") (PostLogoutAll ann_bearer) db_bookmarks).1
  = ((serve env0 (at_time 2300 "-") (PostLogoutAll ann_bearer)
        db_bookmarks).1,
     Json 200
       (BookmarkDocs
          (List.filter (owned_by (ann_claims 2000))
             (bookmarks db_bookmarks)))).
Proof.
  apply (@access_token_outlives_logoutAll plain_jwt plain_bcrypt env0
           (at_time 2300 "-") (at_time 2400 "-") ann_bearer
           (ann_claims 2000) (ann_claims 2000) db_bookmarks); run_hyp.
Defined.

(** Ann's access token of time 2000, at time 2900. *)
Lemma login_access_token_expires_witness :
  ∃ db' accessToken refreshToken,
    @login plain_jwt plain_bcrypt env0 (at_time 2000 "-") "ann@example.org"
      "correct horse" db_same_second
    = (db', Json 200 (Session "Login successful" accessToken refreshToken)) ∧
    ∀ rt' db2,
      (now (at_time 2000 "-") + expiresIn_15m ≤ now rt')%N →
      @authenticateUser plain_jwt env0 rt'
        (Some (String.append "Bearer " accessToken)) db2
      = (db2, Sent (Json 403 (Message "Invalid or expired token"))).
Proof.
  apply (@login_access_token_expires plain_jwt plain_bcrypt plain_jwt_laws
           env0 (at_time 2000 "-") "ann@example.org" "correct horse"
           "access-secret" "refresh-secret" db_same_second ann_before
           db_same_second_ok); run_hyp.
Defined.

(** Ann is still a user after her logout-all. *)
Lemma users_persist_witness :
  ∃ u', u' ∈ users (serve env0 (at_time 2300 "-") (PostLogoutAll ann_bearer)
                      db_sessions).1 ∧
        user_id u' = ann_id ∧ username u' = "ann" ∧
        email u' = "ann@example.org" ∧ password u' = "$2a$correct horse".
Proof.
  apply (@users_persist plain_jwt plain_bcrypt env0 (at_time 2300 "-")
           (PostLogoutAll ann_bearer) db_sessions ann db_sessions_ok).
  run_hyp.
Defined.

(** Ann's record changes at a logout with a token of hers. *)
Lemma sessions_changed_by_owner_witness :
  (∃ p, PostLogout (refresh_token_of ann_id 1000)
        = PostLogin (email ann) p) ∨
  (∃ t, PostLogout (refresh_token_of ann_id 1000) = PostLogout t ∧
        t ∈ refreshTokens ann) ∨
  (∃ a c, PostLogout (refresh_token_of ann_id 1000) = PostLogoutAll a ∧
          @authenticateUser plain_jwt env0 (at_time 2500 "-") a db_sessions
          = (db_sessions, Value c) ∧
          tok_userId c = user_id ann).
Proof.
  apply (@sessions_changed_by_owner plain_jwt plain_bcrypt env0
           (at_time 2500 "-") (PostLogout (refresh_token_of ann_id 1000))
           db_sessions ann db_sessions_ok); run_hyp.
Defined.

(** Ann's bookmark is gone after her own delete, asked for under the
    upper-case spelling of its id. *)
Lemma bookmark_removed_by_owner_witness :
  ∃ a id c, DeleteBookmark ann_bearer "64A7F30000000000000000B1"
            = DeleteBookmark a id ∧
            ObjectId_of_hex id = Some (bookmark_id rocq_bookmark) ∧
            @authenticateUser plain_jwt env0 (at_time 2300 "-") a
              db_bookmarks
            = (db_bookmarks, Value c) ∧
            tok_userId c = userId rocq_bookmark.
Proof.
  apply (@bookmark_removed_by_owner plain_jwt plain_bcrypt env0
           (at_time 2300 "-")
           (DeleteBookmark ann_bearer "64A7F30000000000000000B1")
           db_bookmarks rocq_bookmark); run_hyp.
Defined.

(** A login under an email nobody has writes nothing. *)
Lemma refusals_write_nothing_witness :
  (serve env0 (at_time 2500 "-")
     (PostLogin "nobody@example.org" "correct horse") db_sessions).1
  = db_sessions.
Proof.
  apply (@refusals_write_nothing plain_jwt plain_bcrypt env0
           (at_time 2500 "-")
           (PostLogin "nobody@example.org" "correct horse") db_sessions 400
           (Message "User with this email does not exists"));
    [by_run|lia].
Defined.

(** The database of the run. *)
Lemma reachable_unique_witness :
  NoDup (user_id <$> users db_bookmarks) ∧
  NoDup (username <$> users db_bookmarks) ∧
  NoDup (email <$> users db_bookmarks) ∧
  NoDup (bookmark_id <$> bookmarks db_bookmarks) ∧
  (∀ u v (t : string),
     u ∈ users db_bookmarks → v ∈ users db_bookmarks →
     t ∈ refreshTokens u → t ∈ refreshTokens v → u = v).
Proof.
  exact (@reachable_unique plain_jwt plain_bcrypt plain_jwt_laws db_bookmarks
           db_bookmarks_reachable).
Defined.

(** Ann lists her bookmarks. *)
Lemma listBookmarks_only_own_witness :
  ∃ bs,
    serve env0 (at_time 2300 "-") (GetBookmarks ann_bearer) db_bookmarks
    = (db_bookmarks, Json 200 (BookmarkDocs bs)) ∧
    ∀ b, b ∈ bs ↔ b ∈ bookmarks db_bookmarks ∧
                  userId b = tok_userId (ann_claims 2000).
Proof.
  apply (@listBookmarks_only_own plain_jwt plain_bcrypt env0
           (at_time 2300 "-") ann_bearer (ann_claims 2000) db_bookmarks).
  run_hyp.
Defined.

(** Ann stores her first bookmark. *)
Lemma created_bookmark_listed_witness :
  listBookmarks (ann_claims 2000) (mkDb [ann; bob] [rocq_bookmark])
  = (mkDb [ann; bob] [rocq_bookmark],
     Json 200
       (BookmarkDocs
          (List.filter (owned_by (ann_claims 2000)) (bookmarks db_sessions)
           ++ [rocq_bookmark]))) ∧
  (∀ c2, tok_userId c2 ≠ tok_userId (ann_claims 2000) →
         listBookmarks c2 (mkDb [ann; bob] [rocq_bookmark])
         = (mkDb [ann; bob] [rocq_bookmark],
            Json 200
              (BookmarkDocs
                 (List.filter (owned_by c2) (bookmarks db_sessions))))).
Proof.
  apply (created_bookmark_listed (at_time 2100 rocq_id) ann_bookmark
           (ann_claims 2000) db_sessions). by_run.
Defined.

(** Ann deletes her bookmark and lists again. *)
Lemma deleted_bookmark_unlisted_witness :
  ∃ oid bs,
    ObjectId_of_hex rocq_id = Some oid ∧
    listBookmarks (ann_claims 2000)
      (deleteBookmark rocq_id (ann_claims 2000) db_bookmarks).1
    = ((deleteBookmark rocq_id (ann_claims 2000) db_bookmarks).1,
       Json 200 (BookmarkDocs bs)) ∧
    Forall (λ b, bookmark_id b ≠ oid) bs ∧
    (∀ b, b ∈ bookmarks db_bookmarks →
          userId b = tok_userId (ann_claims 2000) →
          bookmark_id b ≠ oid → b ∈ bs).
Proof.
  apply (@deleted_bookmark_unlisted plain_jwt rocq_id (ann_claims 2000)
           db_bookmarks "Bookmark deleted successfully" db_bookmarks_ok).
  by_run.
Defined.

